(** * bn_falkon.utils.customization: console loaders

    A shallow embedding of [BaseLoader] and of its catalogue of animation
    styles, followed by the properties of the loader: construction guards,
    the text of every terminal write, the cyclic frame counter, the fault
    boundary of the animation thread and the interleavings of the animation
    thread with the thread that leaves the [with] block. *)

From Stdlib Require Import ZArith NArith QArith List String Ascii Bool Lia.
Import ListNotations.
Open Scope Z_scope.

(** ** Python values *)

(** A Python [str] is a sequence of Unicode code points; [len] counts them. *)
Definition pystr := list N.

(** An ASCII literal of the source, as code points. *)
Definition lit (s : string) : pystr :=
  map N_of_ascii (list_ascii_of_string s).

Definition CR : N := 13.      (* "\r" *)
Definition LF : N := 10.      (* "\n" *)
Definition ESC : N := 27.     (* "\033" *)
Definition SPACE : N := 32.   (* " " *)

Definition pystr_eqb (a b : pystr) : bool :=
  if list_eq_dec N.eq_dec a b then true else false.

(** [len(x)] as a Python int. *)
Definition len {A} (l : list A) : Z := Z.of_nat (List.length l).

(** [" " * n]: [n] copies, none when [n] is not positive. *)
Definition spaces (n : Z) : pystr := repeat SPACE (Z.to_nat n).

(** [x in xs] for a list of strings. *)
Definition py_in (x : pystr) (xs : list pystr) : bool :=
  existsb (pystr_eqb x) xs.

(** [s.split(sep)] for a one-character separator: the pieces between the
    occurrences of [sep], empty pieces kept. *)
Fixpoint py_split_aux (sep : N) (s cur : pystr) : list pystr :=
  match s with
  | [] => [rev cur]
  | c :: s' =>
      if N.eqb c sep then rev cur :: py_split_aux sep s' []
      else py_split_aux sep s' (c :: cur)
  end.

Definition py_split (sep : N) (s : pystr) : list pystr :=
  py_split_aux sep s [].

(** ** Exceptions *)

(** The exception classes the loader's statements raise. [KeyboardInterrupt]
    derives from [BaseException] only; the others are instances of
    [Exception], each carrying the text [str(e)]. *)
Inductive exn_class :=
| ValueError
| IndexError
| ZeroDivisionError
| OSError
| OverflowError
| OtherException (name : list N).

Inductive pyexc :=
| KeyboardInterrupt
| Exc (c : exn_class) (msg : pystr).

Inductive result (A : Type) :=
| Ok (a : A)
| Raise (e : pyexc).
Arguments Ok {A} a.
Arguments Raise {A} e.

Definition bind {A B} (r : result A) (k : A -> result B) : result B :=
  match r with
  | Ok a => k a
  | Raise e => Raise e
  end.

Notation "x <- r ;; k" := (bind r (fun x => k))
  (at level 61, r at next level, right associativity).

(** [l[i]]: a negative index counts from the end; out of range raises. *)
Definition py_index {A} (l : list A) (i : Z) : result A :=
  let j := if i <? 0 then i + len l else i in
  if (0 <=? j) && (j <? len l) then
    match nth_error l (Z.to_nat j) with
    | Some x => Ok x
    | None => Raise (Exc IndexError (lit "list index out of range"))
    end
  else Raise (Exc IndexError (lit "list index out of range")).

(** [a % b] on ints: floor modulo, the sign of the divisor. *)
Definition py_mod (a b : Z) : result Z :=
  if b =? 0 then Raise (Exc ZeroDivisionError (lit "integer modulo by zero"))
  else Ok (a mod b).

(** [n] applications of a fallible function. *)
Fixpoint iterM {A} (n : nat) (f : A -> result A) (x : A) : result A :=
  match n with
  | O => Ok x
  | S n' => y <- f x ;; iterM n' f y
  end.

(** ** The loader *)

(** [self._config], a dict with four fixed keys. The float [timeout] is
    carried by its rational value. *)
Record Config := {
  desc : pystr;
  end_ : pystr;
  timeout : Q;
  position : pystr
}.

(** A loader object: the class attribute [ANIMATION_STEPS] of its class, the
    configuration, and the stop flag [_done] shared by the two threads. *)
Record Loader := {
  ANIMATION_STEPS : list pystr;
  _config : Config;
  _done : bool
}.

Definition set_done (b : bool) (self : Loader) : Loader :=
  {| ANIMATION_STEPS := ANIMATION_STEPS self;
     _config := _config self;
     _done := b |}.

Module BaseLoader.

(** The class attributes of [BaseLoader] itself. *)
Definition BASE_ANIMATION_STEPS : list pystr := [].
Definition VALID_POSITIONS : list pystr := [lit "front"; lit "end"].

Definition default_desc : pystr := lit "Loading...".
Definition default_end : pystr := lit "Done!".
Definition default_timeout : Q := 1 # 10.
Definition default_position : pystr := lit "front".

(** [not xs] for a list: true when it is empty. *)
Definition py_not {A} (xs : list A) : bool :=
  match xs with [] => true | _ :: _ => false end.

(** [__init__], run in a class whose [ANIMATION_STEPS] is [steps]. *)
Definition __init__ (steps : list pystr)
    (a_desc a_end : pystr) (a_timeout : Q) (a_position : pystr)
    : result Loader :=
  let self := {| ANIMATION_STEPS := steps;
                 _config := {| desc := a_desc; end_ := a_end;
                               timeout := a_timeout;
                               position := a_position |};
                 _done := false |} in
  if negb (py_in (position (_config self)) VALID_POSITIONS) then
    Raise (Exc ValueError
             (lit "Invalid position: " ++ position (_config self)
              ++ lit ". Choose either 'front' or 'end'."))
  else if py_not (ANIMATION_STEPS self) then
    Raise (Exc ValueError
             (lit "ANIMATION_STEPS must be defined in derived classes and cannot be empty."))
  else Ok self.

(** *** The redraw loop *)

(** The text of the redraw of one pass: a carriage return, then
    [prefix], one space and [suffix], printed with an empty [end]; the pair
    [prefix, suffix] is chosen by the position. Only the chosen side of the
    conditional is evaluated. *)
Definition frame_line (self : Loader) (step_count : Z) : result pystr :=
  ps <- (if pystr_eqb (position (_config self)) (lit "front")
         then frame <- py_index (ANIMATION_STEPS self) step_count ;;
              Ok (frame, desc (_config self))
         else frame <- py_index (ANIMATION_STEPS self) step_count ;;
              Ok (desc (_config self), frame)) ;;
  Ok ([CR] ++ fst ps ++ [SPACE] ++ snd ps).

(** [(step_count + 1) % len(self.ANIMATION_STEPS)]. *)
Definition next_step (self : Loader) (step_count : Z) : result Z :=
  py_mod (step_count + 1) (len (ANIMATION_STEPS self)).

(** What happens in one pass of the loop in which [_done] was read as
    False: [print] and [sleep] both return, or [print] raises (a failing
    stream), or [sleep] raises (a length the library refuses, an
    interrupt). Which of them happens is not decided here. *)
Inductive pass :=
| Quiet
| PrintFails (e : pyexc)
| SleepFails (e : pyexc).

Definition print_in (p : pass) : result unit :=
  match p with PrintFails e => Raise e | _ => Ok tt end.

(** [sleep(secs)] in the pass [p]. *)
Definition sleep_in (p : pass) (secs : Q) : result unit :=
  match p with SleepFails e => Raise e | _ => Ok tt end.

(** The body of the [try]: the [while True] loop. The list holds the passes
    made before [_done] is read as True under the lock; the loop breaks when
    it is used up. The result carries the writes made so far. *)
Fixpoint animate_loop (self : Loader) (passes : list pass)
    (step_count : Z) (out : list pystr) : result unit * list pystr :=
  match passes with
  | [] => (Ok tt, out)
  | p :: rest =>
      match frame_line self step_count with
      | Raise e => (Raise e, out)
      | Ok text =>
          match print_in p with
          | Raise e => (Raise e, out)
          | Ok _ =>
              let out := out ++ [text] in
              match sleep_in p (timeout (_config self)) with
              | Raise e => (Raise e, out)
              | Ok _ =>
                  match next_step self step_count with
                  | Raise e => (Raise e, out)
                  | Ok k => animate_loop self rest k out
                  end
              end
          end
      end
  end.

(** The line the second [except] clause prints for an exception whose
    text is [msg]: [print(f"Animation thread error: {e}")]. *)
Definition report_text (msg : pystr) : pystr :=
  lit "Animation thread error: " ++ msg ++ [LF].

(** The two [except] clauses: [KeyboardInterrupt] passes silently, an
    [Exception] is reported by a [print]. That [print] stands outside
    every [try]: [report] tells whether it returns, and then the line is
    written, or raises, and then nothing is written and its exception
    leaves the handler. *)
Definition handler (e : pyexc) (report : result unit)
    : result unit * list pystr :=
  match e with
  | KeyboardInterrupt => (Ok tt, [])
  | Exc _ msg =>
      match report with
      | Ok _ => (Ok tt, [report_text msg])
      | Raise e' => (Raise e', [])
      end
  end.

(** [_animate]: the loop from [step_count = 0] inside the [try], then the
    handler of what the loop raised. *)
Definition _animate (self : Loader) (passes : list pass)
    (report : result unit) : result unit * list pystr :=
  match animate_loop self passes 0 [] with
  | (Ok _, out) => (Ok tt, out)
  | (Raise e, out) =>
      let (r, ws) := handler e report in (r, out ++ ws)
  end.

(** *** Leaving the scope *)

(** The marker of the completion line. *)
Definition MARKER : N := 0x25CF.

(** The erasing write: a carriage return and
    [len(desc) + len(ANIMATION_STEPS[0]) + 1] spaces, printed with an empty
    [end]. *)
Definition erase_text (self : Loader) : result pystr :=
  first <- py_index (ANIMATION_STEPS self) 0 ;;
  Ok ([CR] ++ spaces (len (desc (_config self)) + len first + 1)).

(** The completion write: carriage return, the green escape sequence, the
    marker, two spaces, the configured end text, the reset sequence, and the
    newline [print] appends. *)
Definition completion_text (self : Loader) : pystr :=
  [CR; ESC] ++ lit "[0;32m" ++ [MARKER] ++ lit "  "
    ++ end_ (_config self) ++ [ESC] ++ lit "[0m" ++ [LF].

End BaseLoader.

(** ** The catalogue of styles

    One subclass of [BaseLoader] per style; a subclass only sets
    [ANIMATION_STEPS]. *)

Inductive style :=
| SimpleLoader
| LineLoader
| GrowthLoader
| CircleLoader
| PulseLoader
| OOOLoader
| WaitLoader
| RocketLoader
| StarLoader
| StarsLoader
| CircleDigitLoader
| HourglassLoader
| ClockLoader
| ArrowLoader
| AtomicLoader
| DigitLoader
| BounceLoader
| DotLoader
| BartLoader.

Definition all_styles : list style :=
  [SimpleLoader; LineLoader; GrowthLoader; CircleLoader; PulseLoader;
   OOOLoader; WaitLoader; RocketLoader; StarLoader; StarsLoader;
   CircleDigitLoader; HourglassLoader; ClockLoader; ArrowLoader; AtomicLoader;
   DigitLoader; BounceLoader; DotLoader; BartLoader].

Open Scope N_scope.

Definition class_ANIMATION_STEPS (c : style) : list pystr :=
  match c with
  | SimpleLoader =>
      [lit "|"; lit "/"; lit "+"; lit "-"; [92]]
  | LineLoader =>
      [[0x28BF]; [0x28FB]; [0x28FD]; [0x28FE]; [0x28F7]; [0x28EF]; [0x28DF];
       [0x287F]]
  | GrowthLoader =>
      [[0x00B7]; [0x2022]; [0x25CF]; [0x2022]; [0x00B7]]
  | CircleLoader =>
      [[0x25D3]; [0x25D1]; [0x25D2]; [0x25D0]]
  | PulseLoader =>
      [[0x2022]; [0x25CB]; [0x2022]; [0x00B7]; [0x25CF]; [0x00B7]]
  | OOOLoader =>
      [lit "0"; lit "O"; lit "o"; lit "+"; [0x00B7]]
  | WaitLoader =>
      [lit "W"; lit "A"; lit "I"; lit "T"]
  | RocketLoader =>
      [lit "|"; lit "/"; lit "^"; lit "-"; [92]; lit "|"; lit "_"]
  | StarLoader =>
      [[0x2736]; [0x2737]; [0x2738]; [0x2739]; [0x273A]]
  | StarsLoader =>
      py_split SPACE
        [0x2729; 32; 0x272A; 32; 0x272B; 32; 0x272C; 32; 0x272D; 32; 0x272F;
         32; 0x2730; 32; 0x2605; 32; 0x2731; 32; 0x2732; 32; 0x2733; 32;
         0x2734; 32; 0x2735; 32; 0x2736; 32; 0x2737; 32; 0x2738; 32; 0x2739;
         32; 0x273A; 32; 0x273B; 32; 0x273C; 32; 0x273D; 32; 0x273E; 32;
         0x273F; 32; 0x2740; 32; 0x2741; 32; 0x2742; 32; 0x2743; 32; 0x2744;
         32; 0x2745; 32; 0x2746; 32; 0x2747; 32; 0x2748; 32; 0x2749; 32;
         0x274A; 32; 0x274B]
  | CircleDigitLoader =>
      py_split SPACE
        [0x2780; 32; 0x2781; 32; 0x2782; 32; 0x2783; 32; 0x2784; 32; 0x2785;
         32; 0x2786; 32; 0x2787; 32; 0x2788; 32; 0x2789]
  | HourglassLoader =>
      [[0x231B]; [0x231B]; [0x231B]; [0x23F3]; [0x23F3]; [0x23F3]]
  | ClockLoader =>
      [[0x23F2]; [0x231A]]
  | ArrowLoader =>
      py_split SPACE
        [0x25B6; 32; 0x25B7; 32; 0x25BA; 32; 0x25BB; 32; 0x25B8; 32; 0x25B9]
  | AtomicLoader =>
      [[0x260A]; [0x260B]; [0x260C]; [0x260D]]
  | DigitLoader =>
      [lit "0"; lit "1"; lit "2"; lit "3"; lit "4"; lit "5"; lit "6"; lit
       "7"; lit "8"; lit "9"]
  | BounceLoader =>
      [[60; 0x2022; 32]; [60; 0x2022; 62]; [32; 0x2022; 62]; [32; 0x2022; 32]]
  | DotLoader =>
      [[0x00B7]; [0x2022]; [0x2022; 0x2022]; [0x2022; 0x2022; 0x2022];
       [0x2022; 0x2022; 0x2022; 0x2022]; [0x2022; 0x2022; 0x2022]; [0x2022;
       0x2022]; [0x2022]]
  | BartLoader =>
      [lit "_"; [0x2581]; [0x2582]; [0x2583]; [0x2584]; [0x2585]; [0x2586];
       [0x2587]; [0x2588]; [0x2587]; [0x2586]; [0x2585]; [0x2584]; [0x2583];
       [0x2582]; [0x2581]; lit "_"]
  end.

Close Scope N_scope.

(** [Style(desc, end, timeout, position)]: the inherited constructor. *)
Definition new (c : style) (a_desc a_end : pystr) (a_timeout : Q)
    (a_position : pystr) : result Loader :=
  BaseLoader.__init__ (class_ANIMATION_STEPS c) a_desc a_end a_timeout
    a_position.

(** ** The two threads

    [__enter__] starts a thread that runs [_animate]; the caller later runs
    [__exit__]. The threads share the loader object (its flag [_done], read
    and written under [_lock]) and the terminal. Each statement of either
    thread is one step; the lock makes the read of the flag one step too. *)

Inductive thread := Caller | Animation.

(** Where the animation thread stands in [_animate]. *)
Inductive anim_pc :=
| AtCheck (step_count : Z)   (* about to read [_done] under the lock *)
| AtPrint (step_count : Z)   (* read False; about to print the frame *)
| AtSleep (step_count : Z)   (* printed; about to sleep and advance *)
| AtReport (msg : pystr)     (* caught an [Exception]; about to report *)
| Finished.                  (* [_animate] is over, the thread has ended *)

(** Where the caller stands. *)
Inductive caller_pc :=
| InScope                    (* in the [with] block, [__enter__] done *)
| AtErase                    (* [__exit__]: flag set; about to erase *)
| AtCompletion               (* about to print the completion line *)
| AtJoin                     (* about to join the thread *)
| Returned                   (* [__exit__] has returned *)
| Failed (e : pyexc).        (* [__exit__] has raised *)

Record state := {
  self : Loader;
  anim : anim_pc;
  caller : caller_pc;
  terminal : list (thread * pystr)
}.

Definition writes_of (t : thread) (texts : list pystr)
    : list (thread * pystr) :=
  map (pair t) texts.

(** [__enter__]: clear the flag under the lock, start the thread. *)
Definition __enter__ (l : Loader) : state :=
  {| self := set_done false l;
     anim := AtCheck 0;
     caller := InScope;
     terminal := [] |}.

Definition goto_anim (pc : anim_pc) (s : state) : state :=
  {| self := self s; anim := pc; caller := caller s;
     terminal := terminal s |}.

(** An exception inside the [try] of [_animate]: a [KeyboardInterrupt]
    passes and the thread ends; an [Exception] takes the thread to the
    [print] of its report. *)
Definition caught (e : pyexc) (s : state) : state :=
  match e with
  | KeyboardInterrupt => goto_anim Finished s
  | Exc _ msg => goto_anim (AtReport msg) s
  end.

(** One statement of the animation thread, when it returns: a [print]
    that writes, a [sleep] that ends. *)
Definition anim_step (s : state) : option state :=
  match anim s with
  | AtCheck k =>
      Some (if _done (self s) then goto_anim Finished s
            else goto_anim (AtPrint k) s)
  | AtPrint k =>
      match BaseLoader.frame_line (self s) k with
      | Ok text =>
          Some {| self := self s; anim := AtSleep k; caller := caller s;
                  terminal := terminal s ++ [(Animation, text)] |}
      | Raise e => Some (caught e s)
      end
  | AtSleep k =>
      match BaseLoader.next_step (self s) k with
      | Ok k' => Some (goto_anim (AtCheck k') s)
      | Raise e => Some (caught e s)
      end
  | AtReport msg =>
      Some {| self := self s; anim := Finished; caller := caller s;
              terminal := terminal s
                          ++ [(Animation, BaseLoader.report_text msg)] |}
  | Finished => None
  end.

(** The statement the animation thread is at raises [e]: the [print] of
    the frame, the [sleep], or the [print] of the report. The first two
    stand in the [try]; an exception of the last leaves [_animate] and
    ends the thread with nothing written. *)
Definition anim_fault (e : pyexc) (s : state) : option state :=
  match anim s with
  | AtPrint k =>
      match BaseLoader.frame_line (self s) k with
      | Ok _ => Some (caught e s)
      | Raise e' => Some (caught e' s)
      end
  | AtSleep _ => Some (caught e s)
  | AtReport _ => Some (goto_anim Finished s)
  | _ => None
  end.

(** One statement of [__exit__]; [join] waits for the thread to end. *)
Definition caller_step (s : state) : option state :=
  match caller s with
  | InScope =>
      Some {| self := set_done true (self s); anim := anim s;
              caller := AtErase; terminal := terminal s |}
  | AtErase =>
      match BaseLoader.erase_text (self s) with
      | Ok text =>
          Some {| self := self s; anim := anim s; caller := AtCompletion;
                  terminal := terminal s ++ [(Caller, text)] |}
      | Raise e =>
          Some {| self := self s; anim := anim s; caller := Failed e;
                  terminal := terminal s |}
      end
  | AtCompletion =>
      Some {| self := self s; anim := anim s; caller := AtJoin;
              terminal := terminal s
                          ++ [(Caller, BaseLoader.completion_text (self s))] |}
  | AtJoin =>
      match anim s with
      | Finished =>
          Some {| self := self s; anim := anim s; caller := Returned;
                  terminal := terminal s |}
      | _ => None
      end
  | Returned => None
  | Failed _ => None
  end.

(** What the scheduler and the surroundings choose: a thread runs its
    next statement, which returns, or the statement the animation thread
    is at raises. *)
Inductive move :=
| Run (t : thread)
| Fault (e : pyexc).

Definition step (m : move) (s : state) : option state :=
  match m with
  | Run Animation => anim_step s
  | Run Caller => caller_step s
  | Fault e => anim_fault e s
  end.

Fixpoint run (ms : list move) (s : state) : option state :=
  match ms with
  | [] => Some s
  | m :: ms' =>
      match step m s with
      | Some s' => run ms' s'
      | None => None
      end
  end.

(** The states of a scope of the loader [l]. *)
Inductive reachable (l : Loader) : state -> Prop :=
| reach_enter : reachable l (__enter__ l)
| reach_step s m s' :
    reachable l s -> step m s = Some s' -> reachable l s'.

(** The texts a thread has written, oldest first. *)
Definition same_thread (a b : thread) : bool :=
  match a, b with
  | Caller, Caller | Animation, Animation => true
  | _, _ => false
  end.

Definition texts_of (t : thread) (ws : list (thread * pystr)) : list pystr :=
  map snd (filter (fun w => same_thread (fst w) t) ws).

Definition written_by (t : thread) (s : state) : list pystr :=
  texts_of t (terminal s).

(** What [__exit__] has written when the caller stands at [pc]. *)
Definition erase_write (l : Loader) : list pystr :=
  match BaseLoader.erase_text l with
  | Ok erase => [erase]
  | Raise _ => []
  end.

Definition exit_writes (l : Loader) (pc : caller_pc) : list pystr :=
  match pc with
  | AtCompletion => erase_write l
  | AtJoin | Returned => erase_write l ++ [BaseLoader.completion_text l]
  | _ => []
  end.

(** [needle in hay] for strings: [needle] occurs in [hay]. *)
Fixpoint starts_with (needle hay : pystr) : bool :=
  match needle, hay with
  | [], _ => true
  | _ :: _, [] => false
  | a :: needle', b :: hay' => N.eqb a b && starts_with needle' hay'
  end.


(** The frame counter a position of the animation thread carries. *)
Definition counter_of (pc : anim_pc) : option Z :=
  match pc with
  | AtCheck k | AtPrint k | AtSleep k => Some k
  | AtReport _ | Finished => None
  end.

(** ** Concrete loaders and schedules *)

(** The object [Style()] builds: every argument at its default. *)
Definition default_loader (c : style) : Loader :=
  {| ANIMATION_STEPS := class_ANIMATION_STEPS c;
     _config := {| desc := BaseLoader.default_desc;
                   end_ := BaseLoader.default_end;
                   timeout := BaseLoader.default_timeout;
                   position := BaseLoader.default_position |};
     _done := false |}.

(** One full pass of the loop: read the flag, print, sleep and advance. *)
Definition one_pass : list move :=
  [Run Animation; Run Animation; Run Animation].

(** All of [__exit__] up to, not including, the join. *)
Definition exit_prints : list move :=
  [Run Caller; Run Caller; Run Caller].

(** Five frames of a loader are drawn, the fifth still on the line, when
    the caller leaves the scope. *)
Definition exit_during_fifth_frame : list move :=
  one_pass ++ one_pass ++ one_pass ++ one_pass
  ++ [Run Animation; Run Animation]
  ++ exit_prints
  ++ [Run Animation; Run Animation; Run Caller].

(** The animation thread has read the flag as False when the caller runs
    all of [__exit__] up to the join; the thread then goes on. *)
Definition exit_between_check_and_print : list move :=
  [Run Animation] ++ exit_prints
  ++ [Run Animation; Run Animation; Run Animation; Run Caller].

(** Where that schedule ends for a [LineLoader] with the default texts: the
    first frame is on the terminal after the completion line. *)
Definition late_frame_state : state :=
  {| self := set_done true (default_loader LineLoader);
     anim := Finished;
     caller := Returned;
     terminal :=
       [(Caller, CR :: repeat SPACE 12);
        (Caller, BaseLoader.completion_text (default_loader LineLoader));
        (Animation, [CR; 0x28BF%N; SPACE] ++ lit "Loading...")] |}.

(** ** Measures on the two threads *)

(** A move of the scheduler, as against an exception from the surroundings. *)
Definition is_run (m : move) : bool :=
  match m with
  | Run _ => true
  | Fault _ => false
  end.


(** How many texts the animation thread can still write once the flag is
    set: before its print, the frame and a failure report; before its
    sleep or its report, a failure report; at the check or at its end,
    none. *)
Definition writes_left (pc : anim_pc) : nat :=
  match pc with
  | AtPrint _ => 2
  | AtSleep _ | AtReport _ => 1
  | AtCheck _ | Finished => 0
  end.

(** ** bn_falkon.utils.file_handler: the report writer *)

(** *** More string operations *)

Definition TAB : N := 9.          (* the tab character *)
Definition LBRACE : N := 123.     (* the opening brace *)

(** [s.replace(old, new)]: every occurrence of [old], found from the left
    and not overlapping an earlier one, becomes [new]; the inserted text is
    not searched again. [skip] counts the characters of a match still to be
    passed over. With an empty [old], [new] goes before every character
    and at the end. *)
Fixpoint replace_from (old new s : pystr) (skip : nat) : pystr :=
  match s with
  | [] => []
  | c :: s' =>
      match skip with
      | S k => replace_from old new s' k
      | O =>
          if starts_with old s
          then new ++ replace_from old new s' (List.length old - 1)
          else c :: replace_from old new s' 0
      end
  end.

Definition py_replace (old new s : pystr) : pystr :=
  match old with
  | [] => new ++ flat_map (fun c => c :: new) s
  | _ :: _ => replace_from old new s 0
  end.

(** [sep.join(parts)]. *)
Fixpoint py_join (sep : pystr) (parts : list pystr) : pystr :=
  match parts with
  | [] => []
  | [x] => x
  | x :: rest => x ++ sep ++ py_join sep rest
  end.

(** The characters [str.strip()] removes: those [str.isspace] accepts. *)
Definition is_space (c : N) : bool :=
  ((9 <=? c) && (c <=? 13) || (28 <=? c) && (c <=? 32)
   || (c =? 0x85) || (c =? 0xA0) || (c =? 0x1680)
   || (0x2000 <=? c) && (c <=? 0x200A)
   || (c =? 0x2028) || (c =? 0x2029) || (c =? 0x202F) || (c =? 0x205F)
   || (c =? 0x3000))%N.

Fixpoint py_lstrip (s : pystr) : pystr :=
  match s with
  | [] => []
  | c :: s' => if is_space c then py_lstrip s' else s
  end.

(** [s.strip()]: white space removed at both ends. *)
Definition py_strip (s : pystr) : pystr :=
  rev (py_lstrip (rev (py_lstrip s))).

(** Reading in text mode: each carriage return, with the line feed behind
    it if there is one, is read as one line feed. *)
Fixpoint universal_newlines (s : pystr) : pystr :=
  match s with
  | [] => []
  | c :: s' =>
      if N.eqb c CR then
        LF :: match s' with
              | [] => []
              | c' :: s'' =>
                  if N.eqb c' LF then universal_newlines s''
                  else universal_newlines s'
              end
      else c :: universal_newlines s'
  end.

Module FileHandler.

(** The exceptions of the report writer: a file opened for reading that
    does not exist, a key that a dict does not hold, and whatever the
    opening or the writing of the output file raises, by class and text. *)
Inductive key :=
| IntKey (i : Z)
| StrKey (s : pystr).

Inductive error :=
| FileNotFoundError (path : pystr)
| KeyError (k : key)
| Raised (class text : pystr).

Inductive outcome (A : Type) :=
| Done (a : A)
| Fails (e : error).
Arguments Done {A} a.
Arguments Fails {A} e.

Definition and_then {A B} (r : outcome A) (k : A -> outcome B) : outcome B :=
  match r with
  | Done a => k a
  | Fails e => Fails e
  end.

(** What becomes of an attempt to write a file: it is written; or [open]
    raises and the file stays as it was; or [open] has emptied the file and
    [write] raises, leaving [remains] in it. *)
Inductive write_outcome :=
| Written
| OpenFails (e : error)
| WriteFails (remains : pystr) (e : error).

(** The files. [resolve] gives the file a path, as spelled, denotes, so
    that two spellings of one file meet; [stored] is the text each file
    holds; [linesep] is the line separator of the platform; [on_write]
    tells what becomes of writing a text to a file. *)
Record filesystem := {
  resolve : pystr -> pystr;
  stored : pystr -> option pystr;
  linesep : pystr;
  on_write : pystr -> pystr -> write_outcome
}.

(** The text of the file a path denotes, if that file exists. *)
Definition lookup (fs : filesystem) (path : pystr) : option pystr :=
  stored fs (resolve fs path).

(** [open(path, 'r')] and [read()]: the text of the file, read in text
    mode. *)
Definition read_file (path : pystr) (fs : filesystem) : outcome pystr :=
  match lookup fs path with
  | Some content => Done (universal_newlines content)
  | None => Fails (FileNotFoundError path)
  end.

Definition put_file (fs : filesystem) (file content : pystr) : filesystem :=
  {| resolve := resolve fs;
     stored := fun f => if pystr_eqb f file then Some content else stored fs f;
     linesep := linesep fs;
     on_write := on_write fs |}.

(** [save_to_file]: when the writing succeeds the file holds [content],
    each line feed written as the line separator. *)
Definition save_to_file (file_path content : pystr) (fs : filesystem)
    : outcome unit * filesystem :=
  let file := resolve fs file_path in
  match on_write fs file content with
  | Written =>
      (Done tt, put_file fs file (py_replace [LF] (linesep fs) content))
  | OpenFails e => (Fails e, fs)
  | WriteFails remains e => (Fails e, put_file fs file remains)
  end.

(** One value of [results]: a dict that may hold the keys 'title', 'rows'
    and 'columns'. *)
Record entry := {
  title : option pystr;
  rows : option (list pystr);
  columns : option (list pystr)
}.

(** [results]: a dict with integer keys, the keys distinct. *)
Definition results_dict := list (Z * entry).

Fixpoint dict_get (results : results_dict) (i : Z) : outcome entry :=
  match results with
  | [] => Fails (KeyError (IntKey i))
  | (k, v) :: rest => if k =? i then Done v else dict_get rest i
  end.

Definition field {A} (name : string) (v : option A) : outcome A :=
  match v with
  | Some a => Done a
  | None => Fails (KeyError (StrKey (lit name)))
  end.

Definition template_path : pystr :=
  lit "bn_falkon/templates/report_template.html".
Definition styles_path : pystr := lit "bn_falkon/templates/styles.css".

(** The triple-quoted text of the loop, line by line. *)
Definition table_template : pystr :=
  [LF] ++ lit "<h2>{title}</h2>" ++ [LF]
  ++ lit "<table>" ++ [LF]
  ++ [TAB] ++ lit "<thead>" ++ [LF]
  ++ [TAB; TAB] ++ lit "{columns}" ++ [LF]
  ++ [TAB] ++ lit "</thead>" ++ [LF]
  ++ [TAB] ++ lit "<tbody>" ++ [LF]
  ++ [TAB; TAB] ++ lit "{rows}" ++ [LF]
  ++ [TAB] ++ lit "</tbody>" ++ [LF]
  ++ lit "</table>" ++ [LF]
  ++ [TAB].

(** The cells of one line: each element between the opening and the
    closing tag, a newline after each. *)
Definition cells (tag : string) (elems : list pystr) : pystr :=
  py_join []
    (map (fun elem => lit "<" ++ lit tag ++ lit ">" ++ elem
                      ++ lit "</" ++ lit tag ++ lit ">" ++ [LF]) elems).

(** The body of the loop for the key [i]. *)
Definition render_table (results : results_dict) (i : Z) : outcome pystr :=
  and_then (dict_get results i) (fun r1 =>
  and_then (field "rows" (rows r1)) (fun row_elems =>
  let rows0 := cells "td" row_elems in
  and_then (dict_get results i) (fun r2 =>
  and_then (field "columns" (columns r2)) (fun column_elems =>
  let columns0 := cells "th" column_elems in
  let columns1 := lit "<tr>" ++ columns0 ++ lit "</tr>" in
  let rows1 := lit "<tr>" ++ rows0 ++ lit "</tr>" in
  let t1 := py_replace (lit "{columns}") (py_strip columns1)
              table_template in
  let t2 := py_replace (lit "{rows}") (py_strip rows1) t1 in
  and_then (dict_get results i) (fun r3 =>
  and_then (field "title" (title r3)) (fun title0 =>
  Done (py_replace (lit "{title}") title0 t2))))))).

(** [for i in range(...)]: the tables in order, up to the first failure. *)
Fixpoint render_tables (results : results_dict) (keys : list Z)
    : outcome (list pystr) :=
  match keys with
  | [] => Done []
  | i :: keys' =>
      and_then (render_table results i) (fun table =>
      and_then (render_tables results keys') (fun tables =>
      Done (table :: tables)))
  end.

(** [range(n)]. *)
Definition py_range (n : nat) : list Z := map Z.of_nat (seq 0 n).

(** [generate_report]: the outcome and the files afterwards. *)
Definition generate_report (target : pystr) (results : results_dict)
    (output_file : pystr) (fs : filesystem) : outcome unit * filesystem :=
  match read_file template_path fs with
  | Fails e => (Fails e, fs)
  | Done template =>
      match read_file styles_path fs with
      | Fails e => (Fails e, fs)
      | Done styles =>
          let final_report :=
            py_replace (lit "{target}") target
              (py_replace (lit "{styles}")
                 (lit "<style>" ++ styles ++ lit "</style>") template) in
          match render_tables results (py_range (List.length results)) with
          | Fails e => (Fails e, fs)
          | Done tables =>
              let final_report :=
                py_replace (lit "{tables}") (py_join (lit "<hr>") tables)
                  final_report in
              save_to_file output_file final_report fs
          end
      end
  end.

End FileHandler.

(** A file system applied to a path is the text read there: [fs path]. *)
Coercion FileHandler.lookup : FileHandler.filesystem >-> Funclass.

(** ** bn_falkon.cli: the report command *)

Module Cli.

(** The dict [results] of [run_html]. *)
Definition example_entry (name : string) : FileHandler.entry :=
  {| FileHandler.title := Some (lit name);
     FileHandler.rows :=
       Some [lit "IP"; lit "MAC"; lit "HOSTNAME"; lit "CVE"];
     FileHandler.columns :=
       Some [lit "121.232.34.11"; lit "00:00:00:00:00"; lit "server@linux";
             lit "CVE-2023-03-02.223-HTML"] |}.

Definition results : FileHandler.results_dict :=
  [(0, example_entry "Example 1"); (1, example_entry "Example 2")].


End Cli.

(** ** Texts a search passes over *)

(** A text without an opening brace: no placeholder can begin in it. *)
Definition brace_free (x : pystr) : Prop := ~ In LBRACE x.

(** [old] and [u] agree as far as both go: one is a prefix of the other. *)
Fixpoint agrees (old u : pystr) : bool :=
  match old, u with
  | [], _ => true
  | _, [] => true
  | a :: old', b :: u' => N.eqb a b && agrees old' u'
  end.

(** No occurrence of [old] begins inside [w], whatever follows [w]. *)
Fixpoint passes (old w : pystr) : bool :=
  match w with
  | [] => true
  | _ :: w' => negb (agrees old w) && passes old w'
  end.


(** The table of an entry as HTML: the title, the 'columns' in the head,
    the 'rows' in the body. *)
Definition table_html (title0 : pystr) (row_elems column_elems : list pystr)
    : pystr :=
  [LF] ++ lit "<h2>" ++ title0 ++ lit "</h2>" ++ [LF]
  ++ lit "<table>" ++ [LF]
  ++ [TAB] ++ lit "<thead>" ++ [LF]
  ++ [TAB; TAB] ++ lit "<tr>" ++ FileHandler.cells "th" column_elems
  ++ lit "</tr>" ++ [LF]
  ++ [TAB] ++ lit "</thead>" ++ [LF]
  ++ [TAB] ++ lit "<tbody>" ++ [LF]
  ++ [TAB; TAB] ++ lit "<tr>" ++ FileHandler.cells "td" row_elems
  ++ lit "</tr>" ++ [LF]
  ++ [TAB] ++ lit "</tbody>" ++ [LF]
  ++ lit "</table>" ++ [LF]
  ++ [TAB].

(** None of the three placeholders of the report template begins in [x],
    whatever follows [x]. *)
Definition placeholder_free (x : pystr) : bool :=
  passes (lit "{styles}") x && passes (lit "{target}") x
  && passes (lit "{tables}") x.

(** A working directory with a small template and a style sheet, where
    every spelling is its own file and every writing succeeds. *)
Definition example_files : FileHandler.filesystem :=
  {| FileHandler.resolve := fun path => path;
     FileHandler.stored := fun file =>
       if pystr_eqb file FileHandler.template_path
       then Some (lit "<html><head>{styles}</head><body><h1>Scan of {target}</h1>"
                  ++ [CR; LF] ++ lit "{tables}</body></html>")
       else if pystr_eqb file FileHandler.styles_path
       then Some (lit "td {border: 1px solid}")
       else None;
     FileHandler.linesep := [LF];
     FileHandler.on_write := fun _ _ => FileHandler.Written |}.


Definition target_only_files : FileHandler.filesystem :=
  {| FileHandler.resolve := fun path => path;
     FileHandler.stored := fun file =>
       if pystr_eqb file FileHandler.template_path
       then Some (lit "<h1>" ++ lit "{target}" ++ lit "</h1>")
       else Some (lit "td {border: 0}");
     FileHandler.linesep := [LF];
     FileHandler.on_write := fun _ _ => FileHandler.Written |}.

(** * Properties *)

(** ** Basic facts on the Python operations *)

Lemma pystr_eqb_eq (a b : pystr) : pystr_eqb a b = true <-> a = b.
Proof.
  unfold pystr_eqb. destruct (list_eq_dec N.eq_dec a b); split;
    congruence.
Qed.

Lemma pystr_eqb_refl (a : pystr) : pystr_eqb a a = true.
Proof. apply pystr_eqb_eq. reflexivity. Qed.

Lemma pystr_eqb_neq (a b : pystr) : a <> b -> pystr_eqb a b = false.
Proof.
  intro H. destruct (pystr_eqb a b) eqn:E; [|reflexivity].
  apply pystr_eqb_eq in E. contradiction.
Qed.

Lemma len_nonneg {A} (l : list A) : 0 <= len l.
Proof. unfold len. lia. Qed.

Lemma len_pos {A} (l : list A) : l <> [] -> 0 < len l.
Proof. destruct l; [congruence|]. unfold len. simpl. lia. Qed.

Lemma py_index_in_range {A} (l : list A) (i : Z) :
  0 <= i < len l -> exists x, py_index l i = Ok x.
Proof.
  intros [H0 H1]. unfold py_index.
  replace (i <? 0) with false by (symmetry; apply Z.ltb_ge; assumption).
  replace (0 <=? i) with true by (symmetry; apply Z.leb_le; assumption).
  replace (i <? len l) with true by (symmetry; apply Z.ltb_lt; assumption).
  simpl. destruct (nth_error l (Z.to_nat i)) eqn:E; [eauto|].
  apply nth_error_None in E. unfold len in H1. lia.
Qed.

Lemma py_mod_pos (a b : Z) : 0 < b -> py_mod a b = Ok (a mod b).
Proof.
  intro H. unfold py_mod.
  replace (b =? 0) with false by (symmetry; apply Z.eqb_neq; lia).
  reflexivity.
Qed.

(** ** Construction *)

Lemma init_ok_inv steps d e t p l :
  BaseLoader.__init__ steps d e t p = Ok l ->
  l = {| ANIMATION_STEPS := steps;
         _config := {| desc := d; end_ := e; timeout := t; position := p |};
         _done := false |}
  /\ steps <> []
  /\ (p = lit "front" \/ p = lit "end").
Proof.
  unfold BaseLoader.__init__. cbn [_config position ANIMATION_STEPS].
  destruct (py_in p BaseLoader.VALID_POSITIONS) eqn:Hp; cbn [negb];
    [|discriminate].
  destruct steps as [|f fs]; cbn [BaseLoader.py_not]; [discriminate|].
  intro H. injection H as <-. repeat split; [congruence|].
  unfold py_in, BaseLoader.VALID_POSITIONS in Hp. cbn [existsb] in Hp.
  apply orb_true_iff in Hp. destruct Hp as [Hp|Hp].
  - left. apply pystr_eqb_eq. exact Hp.
  - apply orb_true_iff in Hp. destruct Hp as [Hp|Hp]; [|discriminate].
    right. apply pystr_eqb_eq. exact Hp.
Qed.

(** C2. A position other than "front" and "end" makes the constructor raise
    [ValueError], whatever the class's frame sequence and the other
    arguments are. *)
Theorem init_rejects_invalid_position
    (steps : list pystr) (d e : pystr) (t : Q) (p : pystr) :
  p <> lit "front" -> p <> lit "end" ->
  BaseLoader.__init__ steps d e t p
  = Raise (Exc ValueError
             (lit "Invalid position: " ++ p
              ++ lit ". Choose either 'front' or 'end'.")).
Proof.
  intros Hf He. unfold BaseLoader.__init__.
  cbn [_config position]. unfold py_in, BaseLoader.VALID_POSITIONS.
  cbn [existsb]. rewrite (pystr_eqb_neq _ _ Hf), (pystr_eqb_neq _ _ He).
  reflexivity.
Qed.

Lemma init_rejects_invalid_position_witness :
  lit "middle" <> lit "front" /\ lit "middle" <> lit "end"
  /\ BaseLoader.__init__ (class_ANIMATION_STEPS LineLoader)
       BaseLoader.default_desc BaseLoader.default_end
       BaseLoader.default_timeout (lit "middle")
     = Raise (Exc ValueError
                (lit "Invalid position: " ++ lit "middle"
                 ++ lit ". Choose either 'front' or 'end'.")).
Proof.
  assert (H1 : lit "middle" <> lit "front") by (vm_compute; discriminate).
  assert (H2 : lit "middle" <> lit "end") by (vm_compute; discriminate).
  split; [exact H1|]. split; [exact H2|].
  exact (init_rejects_invalid_position (class_ANIMATION_STEPS LineLoader)
           BaseLoader.default_desc BaseLoader.default_end
           BaseLoader.default_timeout (lit "middle") H1 H2).
Defined.

(** C3. With an empty frame sequence the constructor raises [ValueError]
    for all arguments, so no loader is ever built on an empty frame set. *)
Theorem init_rejects_empty_steps
    (d e : pystr) (t : Q) (p : pystr) :
  (exists msg, BaseLoader.__init__ [] d e t p = Raise (Exc ValueError msg))
  /\ (forall l, BaseLoader.__init__ [] d e t p <> Ok l).
Proof.
  unfold BaseLoader.__init__. cbn [_config position ANIMATION_STEPS].
  destruct (negb (py_in p BaseLoader.VALID_POSITIONS)); cbn [BaseLoader.py_not].
  - split; [eexists; reflexivity | intros l H; discriminate].
  - split; [eexists; reflexivity | intros l H; discriminate].
Qed.

(** ** The redraw of one pass *)

Lemma frame_line_front l k frame :
  py_index (ANIMATION_STEPS l) k = Ok frame ->
  position (_config l) = lit "front" ->
  BaseLoader.frame_line l k
  = Ok ([CR] ++ frame ++ [SPACE] ++ desc (_config l)).
Proof.
  intros Hi Hp. unfold BaseLoader.frame_line.
  rewrite Hp, pystr_eqb_refl, Hi. reflexivity.
Qed.

Lemma frame_line_end l k frame :
  py_index (ANIMATION_STEPS l) k = Ok frame ->
  position (_config l) = lit "end" ->
  BaseLoader.frame_line l k
  = Ok ([CR] ++ desc (_config l) ++ [SPACE] ++ frame).
Proof.
  intros Hi Hp. unfold BaseLoader.frame_line.
  rewrite Hp, pystr_eqb_neq by (vm_compute; discriminate).
  rewrite Hi. reflexivity.
Qed.

(** C4. In a pass of the redraw loop at frame index [k], the animation
    thread writes the carriage return followed by the frame, one space and
    the description when the position is "front", and by the description,
    one space and the frame when the position is "end"; the frame is the
    element [k] of the frame sequence. *)
Theorem redraw_line_format (s : state) (k : Z) (frame : pystr) :
  anim s = AtPrint k ->
  py_index (ANIMATION_STEPS (self s)) k = Ok frame ->
  (position (_config (self s)) = lit "front" ->
   option_map terminal (anim_step s)
   = Some (terminal s
           ++ [(Animation,
                [CR] ++ frame ++ [SPACE] ++ desc (_config (self s)))]))
  /\ (position (_config (self s)) = lit "end" ->
      option_map terminal (anim_step s)
      = Some (terminal s
              ++ [(Animation,
                   [CR] ++ desc (_config (self s)) ++ [SPACE] ++ frame)])).
Proof.
  intros Hpc Hi. unfold anim_step. rewrite Hpc. split; intro Hp.
  - rewrite (frame_line_front _ _ _ Hi Hp). reflexivity.
  - rewrite (frame_line_end _ _ _ Hi Hp). reflexivity.
Qed.

(** ** The frame counter *)

Lemma next_step_in_range l i :
  ANIMATION_STEPS l <> [] ->
  BaseLoader.next_step l i = Ok ((i + 1) mod len (ANIMATION_STEPS l))
  /\ 0 <= (i + 1) mod len (ANIMATION_STEPS l) < len (ANIMATION_STEPS l).
Proof.
  intro Hne. pose proof (len_pos _ Hne) as Hpos.
  unfold BaseLoader.next_step. rewrite py_mod_pos by assumption.
  split; [reflexivity|]. apply Z.mod_pos_bound. assumption.
Qed.

Lemma iterM_next_step l (n : nat) : forall i,
  ANIMATION_STEPS l <> [] ->
  0 <= i < len (ANIMATION_STEPS l) ->
  iterM n (BaseLoader.next_step l) i
  = Ok ((i + Z.of_nat n) mod len (ANIMATION_STEPS l)).
Proof.
  induction n as [|n IH]; intros i Hne Hi.
  - cbn [iterM]. rewrite Z.add_0_r, Z.mod_small by assumption. reflexivity.
  - cbn [iterM]. destruct (next_step_in_range l i Hne) as [-> Hr].
    cbn [bind]. rewrite IH by assumption. f_equal.
    rewrite Zplus_mod_idemp_l. f_equal. lia.
Qed.

(** C5. The frame counter advances from [i] to [(i + 1) mod N], where [N]
    is the length of the frame sequence, and [N] advances from any index of
    the sequence lead back to that index. *)
Theorem frame_counter_cycle (l : Loader) (i : Z) :
  ANIMATION_STEPS l <> [] ->
  0 <= i < len (ANIMATION_STEPS l) ->
  BaseLoader.next_step l i = Ok ((i + 1) mod len (ANIMATION_STEPS l))
  /\ iterM (List.length (ANIMATION_STEPS l)) (BaseLoader.next_step l) i
     = Ok i.
Proof.
  intros Hne Hi. split.
  - apply next_step_in_range. assumption.
  - rewrite iterM_next_step by assumption. f_equal.
    change (Z.of_nat (List.length (ANIMATION_STEPS l)))
      with (len (ANIMATION_STEPS l)).
    rewrite <- (Z.mul_1_l (len (ANIMATION_STEPS l))) at 1.
    rewrite Z.mod_add by lia. apply Z.mod_small. assumption.
Qed.

Lemma redraw_line_format_witness :
  let s := {| self := default_loader LineLoader; anim := AtPrint 0;
              caller := InScope; terminal := [] |} in
  anim s = AtPrint 0
  /\ py_index (ANIMATION_STEPS (self s)) 0 = Ok [0x28BF%N]
  /\ option_map terminal (anim_step s)
     = Some [(Animation, [CR; 0x28BF%N; SPACE] ++ lit "Loading...")].
Proof.
  intro s. split; [reflexivity|]. split; [reflexivity|].
  apply (proj1 (redraw_line_format s 0 [0x28BF%N] eq_refl eq_refl)).
  reflexivity.
Defined.

Lemma frame_counter_cycle_witness :
  ANIMATION_STEPS (default_loader LineLoader) <> []
  /\ 0 <= 5 < len (ANIMATION_STEPS (default_loader LineLoader))
  /\ BaseLoader.next_step (default_loader LineLoader) 5 = Ok 6
  /\ iterM 8 (BaseLoader.next_step (default_loader LineLoader)) 5 = Ok 5.
Proof.
  assert (H1 : ANIMATION_STEPS (default_loader LineLoader) <> [])
    by (simpl; discriminate).
  assert (H2 : 0 <= 5 < len (ANIMATION_STEPS (default_loader LineLoader)))
    by (unfold len; simpl; lia).
  split; [exact H1|]. split; [exact H2|].
  exact (frame_counter_cycle (default_loader LineLoader) 5 H1 H2).
Defined.

(** ** Invariants of a scope *)

Ltac step_cases H :=
  unfold step, anim_step, anim_fault, caller_step, caught, goto_anim in H;
  repeat match type of H with
         | context [match ?x with _ => _ end] => destruct x eqn:?
         end;
  try discriminate H; injection H as <-;
  cbn [self anim caller terminal set_done ANIMATION_STEPS _config _done
       counter_of] in *.

Lemma reachable_same_class l s :
  reachable l s ->
  ANIMATION_STEPS (self s) = ANIMATION_STEPS l
  /\ _config (self s) = _config l.
Proof.
  induction 1 as [|s m s' Hr [IH1 IH2] Hs].
  - split; reflexivity.
  - step_cases Hs; split; assumption.
Qed.

Lemma reachable_counter l s :
  ANIMATION_STEPS l <> [] ->
  reachable l s ->
  forall k, counter_of (anim s) = Some k ->
            0 <= k < len (ANIMATION_STEPS l).
Proof.
  intros Hne Hr. induction Hr as [|s m s' Hr IH Hs]; intros k Hk.
  - cbn in Hk. injection Hk as <-. pose proof (len_pos _ Hne). lia.
  - destruct (reachable_same_class _ _ Hr) as [Hsteps _].
    step_cases Hs; try discriminate Hk; try (apply IH; assumption);
      try (injection Hk as <-; apply IH; reflexivity).
    injection Hk as <-.
    match goal with
    | E : BaseLoader.next_step _ _ = Ok _ |- _ =>
        unfold BaseLoader.next_step in E; rewrite Hsteps in E;
        rewrite py_mod_pos in E by (apply len_pos; assumption);
        injection E as <-
    end.
    apply Z.mod_pos_bound. apply len_pos. assumption.
Qed.

Lemma reachable_exit_does_not_fail l s :
  ANIMATION_STEPS l <> [] ->
  reachable l s ->
  forall e, caller s <> Failed e.
Proof.
  intros Hne Hr. induction Hr as [|s m s' Hr IH Hs]; intros e He.
  - discriminate He.
  - destruct (reachable_same_class _ _ Hr) as [Hsteps _].
    step_cases Hs; try discriminate He; try (eapply IH; eassumption).
    match goal with
    | E : BaseLoader.erase_text _ = Raise _ |- _ =>
        unfold BaseLoader.erase_text in E; rewrite Hsteps in E;
        destruct (py_index_in_range (ANIMATION_STEPS l) 0) as [x Hx];
        [pose proof (len_pos _ Hne); lia
        | rewrite Hx in E; discriminate E]
    end.
Qed.

(** C10. In a scope of a loader that was constructed, the frame counter of
    the animation thread always lies within the frame sequence, so the
    indexing by it succeeds; the indexing by 0 succeeds too, and
    [__exit__] never fails. *)
Theorem indexing_in_bounds
    (steps : list pystr) (d e : pystr) (t : Q) (p : pystr) (l : Loader)
    (s : state) :
  BaseLoader.__init__ steps d e t p = Ok l ->
  reachable l s ->
  (forall k, counter_of (anim s) = Some k ->
     0 <= k < len (ANIMATION_STEPS (self s))
     /\ exists frame, py_index (ANIMATION_STEPS (self s)) k = Ok frame)
  /\ (exists first, py_index (ANIMATION_STEPS (self s)) 0 = Ok first)
  /\ (forall x, caller s <> Failed x).
Proof.
  intros Hinit Hr.
  destruct (init_ok_inv _ _ _ _ _ _ Hinit) as (Hl & Hne & _).
  assert (Hne' : ANIMATION_STEPS l <> []) by (subst l; exact Hne).
  destruct (reachable_same_class _ _ Hr) as [Hsteps _].
  rewrite Hsteps. split; [|split].
  - intros k Hk. pose proof (reachable_counter _ _ Hne' Hr k Hk) as Hin.
    split; [exact Hin | apply py_index_in_range; exact Hin].
  - apply py_index_in_range. pose proof (len_pos _ Hne'). lia.
  - apply (reachable_exit_does_not_fail l); assumption.
Qed.

Lemma run_reachable l (ms : list move) : forall s s',
  reachable l s -> run ms s = Some s' -> reachable l s'.
Proof.
  induction ms as [|m ms IH]; intros s s' Hr Hrun; cbn [run] in Hrun.
  - injection Hrun as <-. exact Hr.
  - destruct (step m s) as [s1|] eqn:Hs; [|discriminate].
    apply (IH s1 s'); [|exact Hrun].
    apply (reach_step l s m s1); assumption.
Qed.

Lemma indexing_in_bounds_witness :
  let s := {| self := default_loader LineLoader; anim := AtPrint 1;
              caller := InScope;
              terminal := [(Animation,
                            [CR; 0x28BF%N; SPACE] ++ lit "Loading...")] |} in
  run (one_pass ++ [Run Animation]) (__enter__ (default_loader LineLoader))
  = Some s
  /\ 0 <= 1 < len (ANIMATION_STEPS (self s))
  /\ exists frame, py_index (ANIMATION_STEPS (self s)) 1 = Ok frame.
Proof.
  intro s.
  assert (Hrun : run (one_pass ++ [Run Animation])
                   (__enter__ (default_loader LineLoader)) = Some s)
    by reflexivity.
  split; [exact Hrun|].
  exact (proj1 (indexing_in_bounds
                  (class_ANIMATION_STEPS LineLoader)
                  BaseLoader.default_desc BaseLoader.default_end
                  BaseLoader.default_timeout BaseLoader.default_position
                  (default_loader LineLoader) s eq_refl
                  (run_reachable _ _ _ _ (reach_enter _) Hrun)) 1 eq_refl).
Defined.

(** ** The catalogue *)

Lemma bounce_first_frame :
  py_index (class_ANIMATION_STEPS BounceLoader) 0
  = Ok [60%N; 0x2022%N; 32%N].
Proof. reflexivity. Qed.

(** C9, as stated, fails: the frames of [BounceLoader] are three code
    points long (and those of [DotLoader] one to four), so not every frame
    of every style is a single glyph. *)
Lemma bounce_frames_not_single_glyph :
  ~ (forall c : style,
       class_ANIMATION_STEPS c <> []
       /\ Forall (fun frame : pystr => List.length frame = 1%nat)
            (class_ANIMATION_STEPS c)).
Proof.
  intro H. destruct (H BounceLoader) as [_ HF].
  inversion HF as [|f fs Hlen _]. discriminate Hlen.
Qed.

(** C9, amended. Every style has a non-empty frame sequence of non-empty
    frames, and each frame is one code point long in every style other
    than [BounceLoader] and [DotLoader]. *)
Theorem catalogue_frames (c : style) :
  class_ANIMATION_STEPS c <> []
  /\ Forall (fun frame : pystr => frame <> []) (class_ANIMATION_STEPS c)
  /\ (Forall (fun frame : pystr => List.length frame = 1%nat)
        (class_ANIMATION_STEPS c)
      <-> c <> BounceLoader /\ c <> DotLoader).
Proof.
  split; [destruct c; vm_compute; discriminate|].
  split; [destruct c; vm_compute; repeat constructor; discriminate|].
  split.
  - intro HF. split; intro Hc; subst c; vm_compute in HF.
    + inversion HF as [|f fs Hlen _]. discriminate Hlen.
    + inversion HF as [|f0 fs0 _ HF1]. inversion HF1 as [|f1 fs1 _ HF2].
      inversion HF2 as [|f2 fs2 Hlen _]. discriminate Hlen.
  - intros [Hb Hd].
    destruct c; try congruence; vm_compute; repeat constructor.
Qed.

Lemma catalogue_frames_witness :
  Forall (fun frame : pystr => List.length frame = 1%nat)
    (class_ANIMATION_STEPS StarsLoader).
Proof.
  apply (proj2 (proj2 (proj2 (catalogue_frames StarsLoader)))).
  split; discriminate.
Defined.

(** ** Erasing the animation *)


(** Where every frame is as long as the first, the erasing write is as long
    as each redraw. *)
Lemma erase_covers_uniform_frames l k text erase :
  Forall (fun frame => List.length frame
                       = List.length (hd [] (ANIMATION_STEPS l)))
    (ANIMATION_STEPS l) ->
  BaseLoader.frame_line l k = Ok text ->
  BaseLoader.erase_text l = Ok erase ->
  List.length text = List.length erase.
Proof.
  intros HF Ht He.
  assert (Hidx : forall i f, py_index (ANIMATION_STEPS l) i = Ok f ->
                             In f (ANIMATION_STEPS l)).
  { intros i f. unfold py_index.
    destruct ((0 <=? (if i <? 0 then i + len (ANIMATION_STEPS l) else i))
              && ((if i <? 0 then i + len (ANIMATION_STEPS l) else i)
                  <? len (ANIMATION_STEPS l))); [|discriminate].
    destruct (nth_error _ _) eqn:E; [|discriminate].
    intro H. injection H as <-. eapply nth_error_In. exact E. }
  rewrite Forall_forall in HF.
  unfold BaseLoader.erase_text in He.
  destruct (py_index (ANIMATION_STEPS l) 0) as [first|] eqn:E0;
    [|discriminate]. cbn [bind] in He. injection He as <-.
  pose proof (HF _ (Hidx _ _ E0)) as H0.
  unfold BaseLoader.frame_line in Ht.
  destruct (py_index (ANIMATION_STEPS l) k) as [frame|] eqn:Ek;
    [|destruct (pystr_eqb _ _); discriminate].
  pose proof (HF _ (Hidx _ _ Ek)) as Hk.
  assert (Hsp : List.length (spaces (len (desc (_config l)) + len first + 1))
                = (List.length (desc (_config l)) + List.length first + 1)%nat).
  { unfold spaces, len. rewrite repeat_length. lia. }
  destruct (pystr_eqb _ _); cbn [bind fst snd] in Ht; injection Ht as <-;
    cbn [List.length app]; rewrite !length_app; cbn [List.length];
    rewrite Hsp; lia.
Qed.

(** C7, the defect. A [DotLoader] with the default texts leaves the scope
    while its fifth frame, four dots long, is on the line: the redraw is 15
    columns after the carriage return, the erasing write only 12, so three
    columns of the description stay on the terminal. *)
Theorem erase_too_short_for_dot_frame :
  exists s text erase,
    run exit_during_fifth_frame (__enter__ (default_loader DotLoader))
    = Some s
    /\ caller s = Returned
    /\ last (written_by Animation s) [] = text
    /\ text = [CR; 0x2022; 0x2022; 0x2022; 0x2022; SPACE]%N
              ++ lit "Loading..."
    /\ written_by Caller s
       = [erase; BaseLoader.completion_text (default_loader DotLoader)]
    /\ erase = CR :: repeat SPACE 12
    /\ (List.length erase < List.length text)%nat.
Proof.
  eexists. eexists. eexists.
  split; [vm_compute; reflexivity|].
  split; [reflexivity|].
  split; [vm_compute; reflexivity|].
  split; [reflexivity|].
  split; [vm_compute; reflexivity|].
  split; [reflexivity|].
  vm_compute. lia.
Qed.

(** ** The completion line *)

Lemma texts_of_app t ws1 ws2 :
  texts_of t (ws1 ++ ws2) = texts_of t ws1 ++ texts_of t ws2.
Proof. unfold texts_of. rewrite filter_app, map_app. reflexivity. Qed.

Lemma texts_of_writes t t' texts :
  texts_of t (writes_of t' texts)
  = if same_thread t' t then texts else [].
Proof.
  unfold texts_of, writes_of. induction texts as [|x xs IH]; cbn.
  - destruct (same_thread t' t); reflexivity.
  - destruct (same_thread t' t) eqn:E; cbn; [f_equal|]; exact IH.
Qed.

Lemma erase_text_same l l' :
  ANIMATION_STEPS l' = ANIMATION_STEPS l -> _config l' = _config l ->
  BaseLoader.erase_text l' = BaseLoader.erase_text l.
Proof. intros H1 H2. unfold BaseLoader.erase_text. rewrite H1, H2. reflexivity. Qed.

Lemma completion_text_same l l' :
  _config l' = _config l ->
  BaseLoader.completion_text l' = BaseLoader.completion_text l.
Proof. intro H. unfold BaseLoader.completion_text. rewrite H. reflexivity. Qed.

(** The writes of the caller are those of [__exit__] up to where it
    stands, whatever the animation thread has done. *)
Lemma reachable_exit_writes l s :
  reachable l s -> written_by Caller s = exit_writes l (caller s).
Proof.
  induction 1 as [|s m s' Hr IH Hs].
  - reflexivity.
  - destruct (reachable_same_class _ _ Hr) as [Hsteps Hcfg].
    pose proof (erase_text_same l (self s) Hsteps Hcfg) as He.
    pose proof (completion_text_same l (self s) Hcfg) as Hc.
    unfold written_by, exit_writes, erase_write in *.
    step_cases Hs;
      rewrite ?texts_of_app, ?texts_of_writes; cbn [same_thread];
      rewrite ?app_nil_r, ?IH;
      repeat match goal with
             | E : caller s = _ |- _ => rewrite E in *; clear E
             end;
      try reflexivity.
    + rewrite <- He. reflexivity.
    + rewrite Hc. reflexivity.
Qed.

Lemma starts_with_app needle post : starts_with needle (needle ++ post) = true.
Proof.
  induction needle as [|a needle IH]; [reflexivity|].
  cbn. rewrite N.eqb_refl. exact IH.
Qed.



(** *** [__exit__] returns *)


Lemma reachable_flag_set l s :
  reachable l s -> caller s <> InScope -> _done (self s) = true.
Proof.
  induction 1 as [|s m s' Hr IH Hs]; intro Hc.
  - contradiction Hc. reflexivity.
  - step_cases Hs; try reflexivity; try (contradiction Hc; reflexivity);
      try assumption;
      try match goal with
          | E : _done _ = _ |- _ => rewrite E
          end;
      apply IH; congruence.
Qed.






(** ** Writes and the end of the scope *)

Lemma reachable_returned_finished l s :
  reachable l s -> caller s = Returned -> anim s = Finished.
Proof.
  induction 1 as [|s m s' Hr IH Hs]; intro Hc.
  - discriminate Hc.
  - step_cases Hs; try discriminate Hc; try reflexivity;
      try assumption; specialize (IH Hc); congruence.
Qed.

(** Once [__exit__] has returned the animation thread has ended, and
    neither thread can take a step: nothing is written any more. *)
Lemma no_step_after_exit_returns l s m :
  reachable l s -> caller s = Returned -> step m s = None.
Proof.
  intros Hr Hc. pose proof (reachable_returned_finished l s Hr Hc) as Ha.
  destruct m as [[|]|e]; cbn [step];
    unfold caller_step, anim_step, anim_fault; rewrite ?Hc, ?Ha;
    reflexivity.
Qed.

(** C1, the defect. The animation thread reads the flag as False; the
    caller then sets the flag, erases and prints the completion line; the
    thread, already past its check, still draws its frame. The frame is
    on the terminal after the completion line when [__exit__] returns. *)
Theorem frame_drawn_after_completion_line :
  run exit_between_check_and_print (__enter__ (default_loader LineLoader))
  = Some late_frame_state
  /\ caller late_frame_state = Returned
  /\ terminal late_frame_state
     = [(Caller, CR :: repeat SPACE 12);
        (Caller, [CR; ESC] ++ lit "[0;32m" ++ [BaseLoader.MARKER]
                 ++ lit "  Done!" ++ [ESC] ++ lit "[0m" ++ [LF]);
        (Animation, [CR; 0x28BF%N; SPACE] ++ lit "Loading...")].
Proof. repeat split. Qed.

(** ** The fault boundary of the animation thread *)

Lemma frame_line_in_range l k :
  0 <= k < len (ANIMATION_STEPS l) ->
  exists text, BaseLoader.frame_line l k = Ok text.
Proof.
  intro Hk. destruct (py_index_in_range _ _ Hk) as [frame Hf].
  unfold BaseLoader.frame_line. rewrite Hf.
  destruct (pystr_eqb _ _); cbn [bind]; eauto.
Qed.

Section UndisturbedPasses.

Variable l : Loader.
Hypothesis steps_nonempty : ANIMATION_STEPS l <> [].



End UndisturbedPasses.





(** An interrupt during the third sleep: three frames, no other write. *)
Example interrupt_during_third_sleep :
  BaseLoader._animate (default_loader LineLoader)
    [BaseLoader.Quiet; BaseLoader.Quiet;
     BaseLoader.SleepFails KeyboardInterrupt; BaseLoader.Quiet] (Ok tt)
  = (Ok tt,
     [[CR; 0x28BF%N; SPACE] ++ lit "Loading...";
      [CR; 0x28FB%N; SPACE] ++ lit "Loading...";
      [CR; 0x28FD%N; SPACE] ++ lit "Loading..."]).
Proof. reflexivity. Qed.

(** A [sleep] that refuses its length: the [ValueError] is reported after
    the one frame drawn. *)
Example refused_sleep_is_reported :
  BaseLoader._animate
    {| ANIMATION_STEPS := class_ANIMATION_STEPS SimpleLoader;
       _config := {| desc := lit "Working"; end_ := lit "Done!";
                     timeout := (-1) # 1; position := lit "end" |};
       _done := false |}
    [BaseLoader.SleepFails
       (Exc ValueError (lit "sleep length must be non-negative"))]
    (Ok tt)
  = (Ok tt,
     [[CR] ++ lit "Working" ++ [SPACE] ++ lit "|";
      lit "Animation thread error: sleep length must be non-negative"
        ++ [LF]]).
Proof. reflexivity. Qed.

(** * Further properties of the loader *)

(** ** Construction *)

(** X1. [__init__] succeeds exactly when the frame sequence is non-empty
    and the position is "front" or "end"; the object it builds holds the
    class's frames and the four arguments, with the flag cleared. *)
Theorem init_succeeds_iff
    (steps : list pystr) (d e : pystr) (t : Q) (p : pystr) (l : Loader) :
  BaseLoader.__init__ steps d e t p = Ok l
  <-> (steps <> []
       /\ (p = lit "front" \/ p = lit "end")
       /\ l = {| ANIMATION_STEPS := steps;
                 _config := {| desc := d; end_ := e; timeout := t;
                               position := p |};
                 _done := false |}).
Proof.
  split.
  - intro H. destruct (init_ok_inv _ _ _ _ _ _ H) as (Hl & Hne & Hp).
    auto.
  - intros (Hne & Hp & ->). unfold BaseLoader.__init__.
    cbn [_config position ANIMATION_STEPS].
    assert (Hin : py_in p BaseLoader.VALID_POSITIONS = true).
    { destruct Hp as [-> | ->]; reflexivity. }
    rewrite Hin. cbn [negb].
    destruct steps; [congruence | reflexivity].
Qed.

Lemma init_succeeds_iff_witness :
  BaseLoader.__init__ (class_ANIMATION_STEPS ClockLoader)
    (lit "Scanning") (lit "Finished") (1 # 4) (lit "end")
  = Ok {| ANIMATION_STEPS := class_ANIMATION_STEPS ClockLoader;
          _config := {| desc := lit "Scanning"; end_ := lit "Finished";
                        timeout := 1 # 4; position := lit "end" |};
          _done := false |}.
Proof.
  apply (proj2 (init_succeeds_iff (class_ANIMATION_STEPS ClockLoader)
                  (lit "Scanning") (lit "Finished") (1 # 4) (lit "end") _)).
  split; [discriminate|]. split; [right; reflexivity | reflexivity].
Defined.

(** X2. Every style of the catalogue can be constructed: with a position
    "front" or "end" the constructor of each of the nineteen subclasses
    succeeds, for all texts and every timeout. *)
Theorem every_style_constructs
    (c : style) (d e : pystr) (t : Q) (p : pystr) :
  p = lit "front" \/ p = lit "end" ->
  new c d e t p
  = Ok {| ANIMATION_STEPS := class_ANIMATION_STEPS c;
          _config := {| desc := d; end_ := e; timeout := t;
                        position := p |};
          _done := false |}.
Proof.
  intro Hp. unfold new.
  apply (proj2 (init_succeeds_iff (class_ANIMATION_STEPS c) d e t p _)).
  split; [destruct c; vm_compute; discriminate|].
  split; [exact Hp | reflexivity].
Qed.

Lemma every_style_constructs_witness :
  new LineLoader BaseLoader.default_desc BaseLoader.default_end
    BaseLoader.default_timeout BaseLoader.default_position
  = Ok (default_loader LineLoader).
Proof.
  exact (every_style_constructs LineLoader BaseLoader.default_desc
           BaseLoader.default_end BaseLoader.default_timeout
           BaseLoader.default_position (or_introl eq_refl)).
Defined.

(** ** Erasing, style by style *)

(** X3. In every style but [DotLoader] all frames have the length of the
    first one, so for a loader of such a style the erasing write of
    [__exit__] has exactly as many code points as each redraw of the loop,
    whatever the description and the position. *)
Theorem erase_covers_every_style_but_dot
    (c : style) (d e : pystr) (t : Q) (p : pystr) (l : Loader)
    (k : Z) (text erase : pystr) :
  c <> DotLoader ->
  new c d e t p = Ok l ->
  BaseLoader.frame_line l k = Ok text ->
  BaseLoader.erase_text l = Ok erase ->
  List.length text = List.length erase.
Proof.
  intros Hc Hnew Ht He.
  destruct (init_ok_inv _ _ _ _ _ _ Hnew) as (Hl & _ & _).
  apply (erase_covers_uniform_frames l k text erase); [|exact Ht|exact He].
  subst l. cbn [ANIMATION_STEPS].
  destruct c; try congruence; vm_compute; repeat constructor.
Qed.

Lemma erase_covers_every_style_but_dot_witness :
  List.length ([CR; 32; 0x2022; 62; SPACE]%N ++ lit "Loading...")
  = List.length (CR :: repeat SPACE 14).
Proof.
  refine (erase_covers_every_style_but_dot BounceLoader
            BaseLoader.default_desc BaseLoader.default_end
            BaseLoader.default_timeout BaseLoader.default_position
            (default_loader BounceLoader) 2 _ _ _ eq_refl eq_refl eq_refl).
  discriminate.
Defined.

(** ** The end of a scope *)

Lemma run_from_stuck (ms : list move) (s s' : state) :
  (forall m, step m s = None) -> run ms s = Some s' -> ms = [] /\ s' = s.
Proof.
  intros Hstuck Hrun. destruct ms as [|m ms]; cbn [run] in Hrun.
  - injection Hrun as <-. auto.
  - rewrite Hstuck in Hrun. discriminate Hrun.
Qed.

(** X4. Once [__exit__] has returned, the animation thread has ended and
    the scope is over: no step of either thread is possible, so whatever
    is scheduled afterwards the terminal stays as it is. *)
Theorem silent_after_exit_returns
    (l : Loader) (s : state) (ms : list move) (s' : state) :
  reachable l s ->
  caller s = Returned ->
  run ms s = Some s' ->
  anim s = Finished /\ ms = [] /\ terminal s' = terminal s.
Proof.
  intros Hr Hc Hrun. split; [exact (reachable_returned_finished l s Hr Hc)|].
  destruct (run_from_stuck ms s s') as [-> ->]; [|exact Hrun|auto].
  intro m. exact (no_step_after_exit_returns l s m Hr Hc).
Qed.

Lemma silent_after_exit_returns_witness :
  anim late_frame_state = Finished
  /\ @nil move = []
  /\ terminal late_frame_state = terminal late_frame_state.
Proof.
  exact (silent_after_exit_returns (default_loader LineLoader)
           late_frame_state [] late_frame_state
           (run_reachable (default_loader LineLoader)
              exit_between_check_and_print
              (__enter__ (default_loader LineLoader)) late_frame_state
              (reach_enter _) eq_refl)
           eq_refl eq_refl).
Defined.

Lemma length_written_by_app t s ws :
  List.length (texts_of t (terminal s ++ ws))
  = (List.length (written_by t s) + List.length (texts_of t ws))%nat.
Proof. unfold written_by. rewrite texts_of_app, length_app. reflexivity. Qed.

Lemma step_after_flag (m : move) (s s' : state) :
  _done (self s) = true ->
  step m s = Some s' ->
  _done (self s') = true
  /\ (List.length (written_by Animation s') + writes_left (anim s')
      <= List.length (written_by Animation s) + writes_left (anim s))%nat.
Proof.
  intros Hd Hs. unfold written_by at 1.
  step_cases Hs;
    rewrite ?length_written_by_app, ?texts_of_writes;
    cbn [same_thread texts_of filter map fst snd List.length writes_left];
    repeat match goal with
           | E : anim s = _ |- _ => rewrite E; clear E
           end;
    cbn [writes_left];
    try (split; [first [assumption | reflexivity] | unfold written_by; lia]).
  all: congruence.
Qed.

Lemma run_after_flag (ms : list move) : forall s s',
  _done (self s) = true ->
  run ms s = Some s' ->
  (List.length (written_by Animation s') + writes_left (anim s')
   <= List.length (written_by Animation s) + writes_left (anim s))%nat.
Proof.
  induction ms as [|m ms IH]; intros s s' Hd Hrun; cbn [run] in Hrun.
  - injection Hrun as <-. lia.
  - destruct (step m s) as [s1|] eqn:Hs; [|discriminate].
    destruct (step_after_flag m s s1 Hd Hs) as [Hd1 Hle].
    pose proof (IH s1 s' Hd1 Hrun). lia.
Qed.

(** X5. The window of the race is bounded. From the moment [__exit__] has
    set the flag, the animation thread writes at most two more texts,
    however the threads are scheduled and whatever fails: one redraw if it
    had already passed its check, and one failure report. From a thread
    standing at its check it writes nothing more. *)
Theorem writes_after_flag_bounded
    (l : Loader) (s : state) (ms : list move) (s' : state) :
  reachable l s ->
  caller s <> InScope ->
  run ms s = Some s' ->
  (List.length (written_by Animation s')
   <= List.length (written_by Animation s) + 2)%nat
  /\ (forall k, anim s = AtCheck k ->
        written_by Animation s' = written_by Animation s).
Proof.
  intros Hr Hc Hrun.
  pose proof (reachable_flag_set l s Hr Hc) as Hd.
  pose proof (run_after_flag ms s s' Hd Hrun) as Hle.
  split.
  - assert (writes_left (anim s) <= 2)%nat by (destruct (anim s); cbn; lia).
    lia.
  - intros k Hk. rewrite Hk in Hle. cbn [writes_left] in Hle.
    clear Hr Hc Hd. revert s s' Hrun Hk Hle.
    induction ms as [|m ms IH]; intros s s' Hrun Hk Hle; cbn [run] in Hrun.
    + injection Hrun as <-. reflexivity.
    + destruct (step m s) as [s1|] eqn:Hs; [|discriminate].
      assert (Hpre : exists ws,
                 written_by Animation s'
                 = written_by Animation s ++ ws).
      { clear IH Hle Hk. revert s s1 Hs s' Hrun.
        assert (Hone : forall a b m0, step m0 a = Some b ->
                  exists ws, written_by Animation b
                             = written_by Animation a ++ ws).
        { intros a b m0 Hab. unfold written_by.
          step_cases Hab; rewrite ?texts_of_app;
            first [eexists; reflexivity
                  | exists []; rewrite app_nil_r; reflexivity]. }
        assert (Hmany : forall ms0 a b, run ms0 a = Some b ->
                  exists ws, written_by Animation b
                             = written_by Animation a ++ ws).
        { induction ms0 as [|m0 ms0 IH0]; intros a b Hab; cbn [run] in Hab.
          - injection Hab as <-. exists []. rewrite app_nil_r. reflexivity.
          - destruct (step m0 a) as [a1|] eqn:Ha; [|discriminate].
            destruct (Hone _ _ _ Ha) as [w1 H1].
            destruct (IH0 _ _ Hab) as [w2 H2].
            exists (w1 ++ w2). rewrite H2, H1, app_assoc. reflexivity. }
        intros s s1 Hs s' Hrun.
        exact (Hmany (m :: ms) s s'
                 ltac:(cbn [run]; rewrite Hs; exact Hrun)). }
      destruct Hpre as [ws Hws]. rewrite Hws in Hle |- *.
      rewrite length_app in Hle.
      destruct ws; [rewrite app_nil_r; reflexivity | cbn in Hle; lia].
Qed.

Lemma writes_after_flag_bounded_witness :
  let s := {| self := set_done true (default_loader LineLoader);
              anim := AtPrint 0; caller := AtErase; terminal := [] |} in
  let s' := {| self := set_done true (default_loader LineLoader);
               anim := Finished; caller := AtErase;
               terminal := [(Animation,
                             [CR; 0x28BF%N; SPACE] ++ lit "Loading...")] |} in
  run [Run Animation; Run Caller] (__enter__ (default_loader LineLoader))
  = Some s
  /\ run one_pass s = Some s'
  /\ (List.length (written_by Animation s')
      <= List.length (written_by Animation s) + 2)%nat.
Proof.
  intros s s'.
  assert (H1 : run [Run Animation; Run Caller]
                 (__enter__ (default_loader LineLoader)) = Some s)
    by reflexivity.
  assert (H2 : run one_pass s = Some s') by reflexivity.
  split; [exact H1|]. split; [exact H2|].
  refine (proj1 (writes_after_flag_bounded (default_loader LineLoader)
                   s one_pass s'
                   (run_reachable (default_loader LineLoader) _ _ s
                      (reach_enter _) H1) _ H2)).
  discriminate.
Defined.

(** ** The course of an undisturbed animation *)

Lemma py_index_nth {A} (l : list A) (j : nat) (d : A) :
  (j < List.length l)%nat -> py_index l (Z.of_nat j) = Ok (nth j l d).
Proof.
  intro Hj. unfold py_index, len.
  replace (Z.of_nat j <? 0) with false by (symmetry; apply Z.ltb_ge; lia).
  replace (0 <=? Z.of_nat j) with true by (symmetry; apply Z.leb_le; lia).
  replace (Z.of_nat j <? Z.of_nat (List.length l)) with true
    by (symmetry; apply Z.ltb_lt; lia).
  cbn [andb]. rewrite Nat2Z.id.
  rewrite (nth_error_nth' l d Hj). reflexivity.
Qed.

Section UndisturbedCourse.

Variable l : Loader.
Hypothesis steps_nonempty : ANIMATION_STEPS l <> [].

Let N := List.length (ANIMATION_STEPS l).

Lemma N_pos : (0 < N)%nat.
Proof.
  unfold N. destruct (ANIMATION_STEPS l); [congruence | cbn; lia].
Qed.

Lemma next_step_nat (j : nat) :
  BaseLoader.next_step l (Z.of_nat j) = Ok (Z.of_nat (S j mod N)).
Proof.
  destruct (next_step_in_range l (Z.of_nat j) steps_nonempty) as [-> _].
  f_equal. unfold len. fold N.
  rewrite Nat2Z.inj_mod. f_equal. lia.
Qed.

(** From frame [j mod N], [n] undisturbed passes write the redraws of the
    frames [j mod N], [(j + 1) mod N], ... in turn. *)
Lemma quiet_course (n : nat) : forall j out,
  exists ws,
    BaseLoader.animate_loop l (repeat BaseLoader.Quiet n)
      (Z.of_nat (j mod N)) out
    = (Ok tt, out ++ ws)
    /\ Forall2 (fun i text =>
                  BaseLoader.frame_line l (Z.of_nat ((j + i) mod N))
                  = Ok text)
         (seq 0 n) ws.
Proof.
  pose proof N_pos as HN.
  induction n as [|n IH]; intros j out.
  - exists []. cbn. rewrite app_nil_r. split; [reflexivity | constructor].
  - assert (Hj : 0 <= Z.of_nat (j mod N) < len (ANIMATION_STEPS l)).
    { unfold len. fold N. pose proof (Nat.mod_upper_bound j N). lia. }
    destruct (frame_line_in_range l _ Hj) as [text Ht].
    destruct (IH (S j) (out ++ [text])) as (ws & Hrun & HF).
    exists (text :: ws). split.
    + cbn [repeat BaseLoader.animate_loop]. rewrite Ht.
      cbn [BaseLoader.print_in BaseLoader.sleep_in].
      rewrite next_step_nat.
      replace (S (j mod N) mod N)%nat with (S j mod N)%nat.
      * rewrite Hrun, <- app_assoc. reflexivity.
      * change (S (j mod N)) with (1 + j mod N)%nat.
        change (S j) with (1 + j)%nat.
        rewrite Nat.Div0.add_mod_idemp_r. reflexivity.
    + cbn [seq]. constructor.
      * rewrite Nat.add_0_r. exact Ht.
      * rewrite <- seq_shift. apply Forall2_flip.
        apply Forall2_flip in HF.
        clear -HF. induction HF as [|x y xs ys Hxy _ IHF]; cbn [map];
          constructor; [|exact IHF].
        replace (j + S y)%nat with (S j + y)%nat by lia. exact Hxy.
Qed.

End UndisturbedCourse.

(** X6. While every [print] and every [sleep] of the loop returns, the
    animation of a constructed loader draws the frames in order and
    cyclically: a run of [n] such passes ends normally with exactly [n]
    writes, the write number [i] being the redraw of the frame [i mod N],
    where [N] is the number of frames. *)
Theorem undisturbed_animation_cycles_frames
    (steps : list pystr) (d e : pystr) (t : Q) (p : pystr) (l : Loader)
    (n : nat) (r : result unit) :
  BaseLoader.__init__ steps d e t p = Ok l ->
  exists ws,
    BaseLoader._animate l (repeat BaseLoader.Quiet n) r = (Ok tt, ws)
    /\ List.length ws = n
    /\ Forall2 (fun i text =>
                  BaseLoader.frame_line l
                    (Z.of_nat (i mod List.length steps)) = Ok text)
         (seq 0 n) ws.
Proof.
  intros Hinit.
  destruct (init_ok_inv _ _ _ _ _ _ Hinit) as (Hl & Hne & _).
  assert (Hne' : ANIMATION_STEPS l <> []) by (subst l; exact Hne).
  destruct (quiet_course l Hne' n 0 []) as (ws & Hrun & HF).
  assert (Hsteps : ANIMATION_STEPS l = steps) by (subst l; reflexivity).
  rewrite Hsteps in Hrun, HF.
  rewrite Nat.Div0.mod_0_l in Hrun.
  exists ws. unfold BaseLoader._animate.
  change (Z.of_nat 0) with 0 in Hrun. rewrite Hrun.
  split; [reflexivity|]. split.
  - apply Forall2_length in HF. rewrite length_seq in HF. congruence.
  - exact HF.
Qed.

Lemma undisturbed_animation_cycles_frames_witness :
  exists ws,
    BaseLoader._animate (default_loader ClockLoader)
      (repeat BaseLoader.Quiet 3) (Ok tt) = (Ok tt, ws)
    /\ List.length ws = 3%nat
    /\ Forall2 (fun i text =>
                  BaseLoader.frame_line (default_loader ClockLoader)
                    (Z.of_nat (i mod List.length
                                       (class_ANIMATION_STEPS ClockLoader)))
                  = Ok text)
         (seq 0 3) ws.
Proof.
  exact (undisturbed_animation_cycles_frames
           (class_ANIMATION_STEPS ClockLoader)
           BaseLoader.default_desc BaseLoader.default_end
           BaseLoader.default_timeout BaseLoader.default_position
           (default_loader ClockLoader) 3 (Ok tt) eq_refl).
Defined.

(** ** Inside the scope *)

Lemma step_in_scope (l : Loader) (m : move) (s s' : state) :
  ANIMATION_STEPS l <> [] ->
  reachable l s ->
  is_run m = true ->
  (caller s = InScope ->
   _done (self s) = false /\ counter_of (anim s) <> None) ->
  step m s = Some s' ->
  caller s' = InScope ->
  _done (self s') = false /\ counter_of (anim s') <> None.
Proof.
  intros Hne Hr Hm Hinv Hs Hc'.
  destruct (reachable_same_class _ _ Hr) as [Hsteps Hcfg].
  pose proof (reachable_counter l s Hne Hr) as Hcnt.
  destruct m as [[|]|x]; [| |discriminate Hm]; cbn [step] in Hs.
  - unfold caller_step in Hs.
    destruct (caller s); try discriminate Hs;
      repeat match type of Hs with
             | context [match ?x with _ => _ end] => destruct x
             end;
      try discriminate Hs; injection Hs as <-; discriminate Hc'.
  - assert (Hc : caller s = InScope).
    { unfold anim_step, caught, goto_anim in Hs.
      repeat match type of Hs with
             | context [match ?x with _ => _ end] => destruct x
             end;
        try discriminate Hs; injection Hs as <-; exact Hc'. }
    destruct (Hinv Hc) as [Hd Hnf].
    unfold anim_step in Hs. destruct (anim s) as [k|k|k|msg|] eqn:Ha.
    + rewrite Hd in Hs. injection Hs as <-. cbn. split; [exact Hd|].
      discriminate.
    + destruct (frame_line_in_range (self s) k) as [text Htext].
      { rewrite Hsteps. apply Hcnt. reflexivity. }
      rewrite Htext in Hs. injection Hs as <-. cbn. split; [exact Hd|].
      discriminate.
    + destruct (next_step_in_range (self s) k) as [Hn _].
      { rewrite Hsteps. exact Hne. }
      rewrite Hn in Hs. injection Hs as <-. cbn. split; [exact Hd|].
      discriminate.
    + contradiction Hnf. reflexivity.
    + contradiction Hnf. reflexivity.
Qed.

Lemma run_in_scope (l : Loader) (ms : list move) : forall s s',
  ANIMATION_STEPS l <> [] ->
  reachable l s ->
  forallb is_run ms = true ->
  (caller s = InScope ->
   _done (self s) = false /\ counter_of (anim s) <> None) ->
  run ms s = Some s' ->
  caller s' = InScope ->
  _done (self s') = false /\ counter_of (anim s') <> None.
Proof.
  induction ms as [|m ms IH]; intros s s' Hne Hr Hms Hinv Hrun Hc';
    cbn [run] in Hrun.
  - injection Hrun as <-. exact (Hinv Hc').
  - cbn [forallb] in Hms. apply andb_true_iff in Hms. destruct Hms as [Hm Hms].
    destruct (step m s) as [s1|] eqn:Hs; [|discriminate].
    apply (IH s1 s' Hne); try assumption.
    + exact (reach_step l s m s1 Hr Hs).
    + intro Hc1. exact (step_in_scope l m s s1 Hne Hr Hm Hinv Hs Hc1).
Qed.

(** X8. The animation lasts as long as the scope: for a constructed
    loader, as long as the caller has not begun [__exit__] and no statement
    of the animation thread has raised, the flag is still cleared, the
    thread is in its loop, at an index of the frame sequence, and the
    caller has written nothing. *)
Theorem animation_lasts_while_in_scope
    (steps : list pystr) (d e : pystr) (t : Q) (p : pystr) (l : Loader)
    (ms : list move) (s : state) :
  BaseLoader.__init__ steps d e t p = Ok l ->
  forallb is_run ms = true ->
  run ms (__enter__ l) = Some s ->
  caller s = InScope ->
  _done (self s) = false
  /\ (exists k, counter_of (anim s) = Some k
                /\ 0 <= k < len (ANIMATION_STEPS l))
  /\ written_by Caller s = [].
Proof.
  intros Hinit Hms Hrun Hc.
  destruct (init_ok_inv _ _ _ _ _ _ Hinit) as (Hl & Hne & _).
  assert (Hne' : ANIMATION_STEPS l <> []) by (subst l; exact Hne).
  pose proof (run_reachable l ms _ s (reach_enter l) Hrun) as Hr.
  destruct (run_in_scope l ms (__enter__ l) s Hne' (reach_enter l) Hms)
    as [Hd Hnf]; try assumption.
  - intros _. cbn. split; [reflexivity | discriminate].
  - split; [exact Hd|]. split.
    + destruct (counter_of (anim s)) as [k|] eqn:Hk; [|congruence].
      exists k. split; [reflexivity|].
      exact (reachable_counter l s Hne' Hr k Hk).
    + rewrite (reachable_exit_writes l s Hr), Hc. reflexivity.
Qed.

Lemma animation_lasts_while_in_scope_witness :
  let s := {| self := default_loader LineLoader; anim := AtPrint 1;
              caller := InScope;
              terminal := [(Animation,
                            [CR; 0x28BF%N; SPACE] ++ lit "Loading...")] |} in
  _done (self s) = false
  /\ (exists k, counter_of (anim s) = Some k
                /\ 0 <= k < len (ANIMATION_STEPS (default_loader LineLoader)))
  /\ written_by Caller s = [].
Proof.
  intro s.
  exact (animation_lasts_while_in_scope
           (class_ANIMATION_STEPS LineLoader)
           BaseLoader.default_desc BaseLoader.default_end
           BaseLoader.default_timeout BaseLoader.default_position
           (default_loader LineLoader) (one_pass ++ [Run Animation]) s
           eq_refl eq_refl eq_refl eq_refl).
Defined.

(** * Properties of the report writer *)

(** ** Replacing *)

Lemma agrees_false_starts_with (old u s : pystr) :
  agrees old u = false -> starts_with old (u ++ s) = false.
Proof.
  revert u. induction old as [|a old IH]; intros u H; [discriminate H|].
  destruct u as [|b u]; [discriminate H|]. cbn [agrees] in H.
  cbn [app starts_with]. destruct (N.eqb a b); [|reflexivity].
  cbn [andb] in *. apply IH. exact H.
Qed.

(** A search passes over a text in which no occurrence can begin. *)
Lemma replace_from_passes (old new w s : pystr) :
  passes old w = true ->
  replace_from old new (w ++ s) 0 = w ++ replace_from old new s 0.
Proof.
  induction w as [|c w IH]; intro H; [reflexivity|].
  cbn [passes] in H. apply andb_true_iff in H. destruct H as [Hc Hw].
  apply negb_true_iff in Hc.
  change ((c :: w) ++ s) with (c :: (w ++ s)). cbn [replace_from].
  change (c :: (w ++ s)) with ((c :: w) ++ s).
  rewrite (agrees_false_starts_with old (c :: w) s Hc).
  cbn [app]. f_equal. apply IH. exact Hw.
Qed.

Lemma brace_free_passes (old' x : pystr) :
  brace_free x -> passes (LBRACE :: old') x = true.
Proof.
  induction x as [|c x IH]; intro H; [reflexivity|].
  cbn [passes agrees]. unfold brace_free in H. cbn [In] in H.
  destruct (N.eqb LBRACE c) eqn:E.
  - apply N.eqb_eq in E. exfalso. apply H. left. congruence.
  - cbn [andb negb]. apply IH. intro Hin. apply H. right. exact Hin.
Qed.

Lemma replace_from_skip (old new w s : pystr) :
  replace_from old new (w ++ s) (List.length w) = replace_from old new s 0.
Proof.
  induction w as [|c w IH]; [reflexivity|].
  cbn [app List.length replace_from]. exact IH.
Qed.

Lemma starts_with_self (old s : pystr) : starts_with old (old ++ s) = true.
Proof. apply starts_with_app. Qed.

(** At an occurrence the search puts [new] and goes on behind it. *)
Lemma replace_from_match (a : N) (old' new s : pystr) :
  replace_from (a :: old') new ((a :: old') ++ s) 0
  = new ++ replace_from (a :: old') new s 0.
Proof.
  change ((a :: old') ++ s) with (a :: (old' ++ s)).
  cbn [replace_from].
  change (a :: (old' ++ s)) with ((a :: old') ++ s).
  rewrite starts_with_self. f_equal.
  replace (List.length (a :: old') - 1)%nat with (List.length old')
    by (cbn [List.length]; lia).
  apply replace_from_skip.
Qed.

Lemma replace_from_brace_free (old' new x : pystr) :
  brace_free x -> replace_from (LBRACE :: old') new x 0 = x.
Proof.
  intro H. rewrite <- (app_nil_r x) at 1.
  rewrite replace_from_passes by (apply brace_free_passes; exact H).
  cbn [replace_from]. apply app_nil_r.
Qed.

Lemma brace_free_app (x y : pystr) :
  brace_free x -> brace_free y -> brace_free (x ++ y).
Proof.
  unfold brace_free. intros Hx Hy Hin. apply in_app_or in Hin. tauto.
Qed.

(** ** Stripping *)

Lemma py_lstrip_solid (c : N) (s : pystr) :
  is_space c = false -> py_lstrip (c :: s) = c :: s.
Proof. intro H. cbn [py_lstrip]. rewrite H. reflexivity. Qed.

(** A line between its tags has no white space at its ends. *)
Lemma py_strip_tr (x : pystr) :
  py_strip (lit "<tr>" ++ x ++ lit "</tr>") = lit "<tr>" ++ x ++ lit "</tr>".
Proof.
  unfold py_strip.
  change (lit "<tr>" ++ x ++ lit "</tr>")
    with (60%N :: (lit "tr>" ++ x ++ lit "</tr>")).
  rewrite py_lstrip_solid by reflexivity.
  change (60%N :: (lit "tr>" ++ x ++ lit "</tr>"))
    with (lit "<tr>" ++ (x ++ lit "</tr>")).
  rewrite (rev_app_distr (lit "<tr>")), (rev_app_distr x).
  change (rev (lit "</tr>")) with (62%N :: rev (lit "</tr")).
  change (((62%N :: rev (lit "</tr")) ++ rev x) ++ rev (lit "<tr>"))
    with (62%N :: ((rev (lit "</tr") ++ rev x) ++ rev (lit "<tr>"))).
  rewrite py_lstrip_solid by reflexivity.
  change (62%N :: ((rev (lit "</tr") ++ rev x) ++ rev (lit "<tr>")))
    with ((rev (lit "</tr>") ++ rev x) ++ rev (lit "<tr>")).
  rewrite <- !rev_app_distr. apply rev_involutive.
Qed.

Lemma agrees_false_app (old u y : pystr) :
  agrees old u = false -> agrees old (u ++ y) = false.
Proof.
  revert u. induction old as [|a old IH]; intros u H; [discriminate H|].
  destruct u as [|b u]; [discriminate H|]. cbn [agrees app] in *.
  destruct (N.eqb a b); [|reflexivity]. cbn [andb] in *. apply IH. exact H.
Qed.

Lemma passes_app (old x y : pystr) :
  passes old x = true -> passes old y = true -> passes old (x ++ y) = true.
Proof.
  intros Hx Hy. induction x as [|c x IH]; [exact Hy|].
  cbn [passes] in Hx. apply andb_true_iff in Hx. destruct Hx as [Hc Hx].
  apply negb_true_iff in Hc.
  change ((c :: x) ++ y) with (c :: (x ++ y)). cbn [passes].
  change (c :: (x ++ y)) with ((c :: x) ++ y).
  rewrite (agrees_false_app old (c :: x) y Hc). cbn [negb andb].
  apply IH. exact Hx.
Qed.

(** One placeholder between two texts the search passes over. *)
Lemma py_replace_once (old' new pre post : pystr) :
  passes (LBRACE :: old') pre = true ->
  passes (LBRACE :: old') post = true ->
  py_replace (LBRACE :: old') new (pre ++ (LBRACE :: old') ++ post)
  = pre ++ new ++ post.
Proof.
  intros Hpre Hpost. unfold py_replace.
  rewrite replace_from_passes by exact Hpre.
  rewrite replace_from_match.
  rewrite <- (app_nil_r post) at 1.
  rewrite replace_from_passes by exact Hpost.
  cbn [replace_from]. rewrite app_nil_r. reflexivity.
Qed.

Lemma py_replace_none (old' new x : pystr) :
  passes (LBRACE :: old') x = true ->
  py_replace (LBRACE :: old') new x = x.
Proof.
  intro H. unfold py_replace. rewrite <- (app_nil_r x) at 1.
  rewrite replace_from_passes by exact H.
  cbn [replace_from]. apply app_nil_r.
Qed.

Lemma py_join_empty_sep_brace_free (parts : list pystr) :
  Forall brace_free parts -> brace_free (py_join [] parts).
Proof.
  induction 1 as [|x rest Hx _ IH]; [intros []|].
  destruct rest as [|y rest]; [exact Hx|].
  change (py_join [] (x :: y :: rest)) with (x ++ [] ++ py_join [] (y :: rest)).
  apply brace_free_app; [exact Hx | exact IH].
Qed.

Lemma cells_brace_free (tag : string) (elems : list pystr) :
  brace_free (lit tag) ->
  Forall brace_free elems ->
  brace_free (FileHandler.cells tag elems).
Proof.
  intros Htag Hel. unfold FileHandler.cells.
  apply py_join_empty_sep_brace_free.
  induction Hel as [|x rest Hx _ IH]; cbn [map]; constructor; [|exact IH].
  repeat apply brace_free_app; try assumption;
    intro Hin; vm_compute in Hin; intuition discriminate.
Qed.

Ltac solve_passes :=
  repeat (apply passes_app);
  first [reflexivity | apply brace_free_passes; assumption].

(** The three replacements in the table template, for a head line and a
    body line without an opening brace. *)
Lemma table_template_filled (ti hd bd : pystr) :
  brace_free hd -> brace_free bd ->
  py_replace (lit "{title}") ti
    (py_replace (lit "{rows}") bd
       (py_replace (lit "{columns}") hd FileHandler.table_template))
  = [LF] ++ lit "<h2>" ++ ti ++ lit "</h2>" ++ [LF]
    ++ lit "<table>" ++ [LF]
    ++ [TAB] ++ lit "<thead>" ++ [LF]
    ++ [TAB; TAB] ++ hd ++ [LF]
    ++ [TAB] ++ lit "</thead>" ++ [LF]
    ++ [TAB] ++ lit "<tbody>" ++ [LF]
    ++ [TAB; TAB] ++ bd ++ [LF]
    ++ [TAB] ++ lit "</tbody>" ++ [LF]
    ++ lit "</table>" ++ [LF]
    ++ [TAB].
Proof.
  intros Hhd Hbd.
  set (p1 := [LF] ++ lit "<h2>").
  set (p2 := lit "</h2>" ++ [LF] ++ lit "<table>" ++ [LF]
             ++ [TAB] ++ lit "<thead>" ++ [LF] ++ [TAB; TAB]).
  set (q1 := [LF] ++ [TAB] ++ lit "</thead>" ++ [LF]
             ++ [TAB] ++ lit "<tbody>" ++ [LF] ++ [TAB; TAB]).
  set (q2 := [LF] ++ [TAB] ++ lit "</tbody>" ++ [LF]
             ++ lit "</table>" ++ [LF] ++ [TAB]).
  change FileHandler.table_template
    with ((p1 ++ lit "{title}" ++ p2)
          ++ (LBRACE :: lit "columns}")
          ++ (q1 ++ lit "{rows}" ++ q2)).
  change (lit "{columns}") with (LBRACE :: lit "columns}").
  rewrite (py_replace_once (lit "columns}") hd
             (p1 ++ lit "{title}" ++ p2) (q1 ++ lit "{rows}" ++ q2)
             eq_refl eq_refl).
  replace ((p1 ++ lit "{title}" ++ p2) ++ hd ++ q1 ++ lit "{rows}" ++ q2)
    with (((p1 ++ lit "{title}" ++ p2) ++ hd ++ q1)
          ++ (LBRACE :: lit "rows}") ++ q2)
    by (rewrite <- !app_assoc; reflexivity).
  change (lit "{rows}") with (LBRACE :: lit "rows}").
  rewrite (py_replace_once (lit "rows}") bd
             ((p1 ++ lit "{title}" ++ p2) ++ hd ++ q1) q2)
    by solve_passes.
  replace (((p1 ++ lit "{title}" ++ p2) ++ hd ++ q1) ++ bd ++ q2)
    with (p1 ++ (LBRACE :: lit "title}") ++ (p2 ++ hd ++ q1 ++ bd ++ q2))
    by (rewrite <- !app_assoc; reflexivity).
  change (lit "{title}") with (LBRACE :: lit "title}").
  rewrite (py_replace_once (lit "title}") ti p1
             (p2 ++ hd ++ q1 ++ bd ++ q2))
    by solve_passes.
  unfold p1, p2, q1, q2. rewrite <- !app_assoc. reflexivity.
Qed.

(** ** One table *)

(** X10. The table of an entry that holds its three keys, the cells free of
    opening braces: the title goes into the heading as it is, the elements
    under 'columns' become the [th] cells of the head line and those under
    'rows' the [td] cells of the body line, each followed by a newline, and
    nothing is escaped or trimmed. *)
Theorem render_table_html
    (results : FileHandler.results_dict) (i : Z) (e : FileHandler.entry)
    (ti : pystr) (rs cs : list pystr) :
  FileHandler.dict_get results i = FileHandler.Done e ->
  FileHandler.title e = Some ti ->
  FileHandler.rows e = Some rs ->
  FileHandler.columns e = Some cs ->
  Forall brace_free rs ->
  Forall brace_free cs ->
  FileHandler.render_table results i
  = FileHandler.Done (table_html ti rs cs).
Proof.
  intros Hget Hti Hrs Hcs Hbr Hbc. unfold FileHandler.render_table.
  rewrite Hget. cbn [FileHandler.and_then]. rewrite Hrs, Hcs, Hti.
  cbn [FileHandler.field FileHandler.and_then]. f_equal.
  rewrite !py_strip_tr.
  rewrite table_template_filled.
  - unfold table_html. rewrite <- !app_assoc. reflexivity.
  - repeat apply brace_free_app;
      try (apply cells_brace_free; [|assumption]);
      intro Hin; vm_compute in Hin; intuition discriminate.
  - repeat apply brace_free_app;
      try (apply cells_brace_free; [|assumption]);
      intro Hin; vm_compute in Hin; intuition discriminate.
Qed.

Lemma render_table_html_witness :
  FileHandler.render_table Cli.results 1
  = FileHandler.Done
      (table_html (lit "Example 2")
         [lit "IP"; lit "MAC"; lit "HOSTNAME"; lit "CVE"]
         [lit "121.232.34.11"; lit "00:00:00:00:00"; lit "server@linux";
          lit "CVE-2023-03-02.223-HTML"]).
Proof.
  refine (render_table_html Cli.results 1 (Cli.example_entry "Example 2")
            _ _ _ eq_refl eq_refl eq_refl eq_refl _ _);
    repeat constructor; intro Hin; vm_compute in Hin; intuition discriminate.
Defined.

(** ** When the report is written *)








(** ** What the report holds *)

Lemma placeholder_free_passes (x : pystr) :
  placeholder_free x = true ->
  passes (LBRACE :: lit "styles}") x = true
  /\ passes (LBRACE :: lit "target}") x = true
  /\ passes (LBRACE :: lit "tables}") x = true.
Proof.
  unfold placeholder_free. intro H.
  apply andb_true_iff in H. destruct H as [H H3].
  apply andb_true_iff in H. destruct H as [H1 H2].
  repeat split; assumption.
Qed.

Lemma brace_free_placeholder_free (x : pystr) :
  brace_free x -> placeholder_free x = true.
Proof.
  intro H. unfold placeholder_free.
  change (lit "{styles}") with (LBRACE :: lit "styles}").
  change (lit "{target}") with (LBRACE :: lit "target}").
  change (lit "{tables}") with (LBRACE :: lit "tables}").
  rewrite !brace_free_passes by exact H. reflexivity.
Qed.

(** X13. When the template, as read, is four texts around the three
    placeholders in the order styles, target, tables, and no placeholder
    begins in those texts, in the style sheet as read or in the target,
    then the text [generate_report] hands to [save_to_file] for the
    output file is the template with the style sheet between [style]
    tags, the target, and the tables joined by [hr] tags in the places of
    the placeholders. *)
Theorem generate_report_fills_template
    (target : pystr) (results : FileHandler.results_dict)
    (output_file : pystr) (fs : FileHandler.filesystem)
    (a b c d styles : pystr) (tables : list pystr) :
  FileHandler.read_file FileHandler.template_path fs
  = FileHandler.Done (a ++ lit "{styles}" ++ b ++ lit "{target}" ++ c
                      ++ lit "{tables}" ++ d) ->
  FileHandler.read_file FileHandler.styles_path fs
  = FileHandler.Done styles ->
  placeholder_free a = true -> placeholder_free b = true ->
  placeholder_free c = true -> placeholder_free d = true ->
  placeholder_free styles = true -> placeholder_free target = true ->
  FileHandler.render_tables results
    (FileHandler.py_range (List.length results))
  = FileHandler.Done tables ->
  FileHandler.generate_report target results output_file fs
  = FileHandler.save_to_file output_file
      (a ++ lit "<style>" ++ styles ++ lit "</style>" ++ b ++ target ++ c
       ++ py_join (lit "<hr>") tables ++ d) fs.
Proof.
  intros Htpl Hsty Ha Hb Hc Hd Hs Ht Htabs.
  destruct (placeholder_free_passes a Ha) as (Ha1 & Ha2 & Ha3).
  destruct (placeholder_free_passes b Hb) as (Hb1 & Hb2 & Hb3).
  destruct (placeholder_free_passes c Hc) as (Hc1 & Hc2 & Hc3).
  destruct (placeholder_free_passes d Hd) as (Hd1 & Hd2 & Hd3).
  destruct (placeholder_free_passes styles Hs) as (Hs1 & Hs2 & Hs3).
  destruct (placeholder_free_passes target Ht) as (Ht1 & Ht2 & Ht3).
  unfold FileHandler.generate_report.
  rewrite Htpl, Hsty, Htabs. f_equal.
  set (S := lit "<style>" ++ styles ++ lit "</style>").
  change (lit "{styles}") with (LBRACE :: lit "styles}").
  rewrite (py_replace_once (lit "styles}") S a
             (b ++ lit "{target}" ++ c ++ lit "{tables}" ++ d))
    by (repeat apply passes_app; first [reflexivity | assumption]).
  replace (a ++ S ++ b ++ lit "{target}" ++ c ++ lit "{tables}" ++ d)
    with ((a ++ S ++ b) ++ (LBRACE :: lit "target}")
          ++ (c ++ lit "{tables}" ++ d))
    by (rewrite <- !app_assoc; reflexivity).
  change (lit "{target}") with (LBRACE :: lit "target}").
  rewrite (py_replace_once (lit "target}") target (a ++ S ++ b)
             (c ++ lit "{tables}" ++ d))
    by (repeat apply passes_app; first [reflexivity | assumption]).
  replace ((a ++ S ++ b) ++ target ++ c ++ lit "{tables}" ++ d)
    with ((a ++ S ++ b ++ target ++ c) ++ (LBRACE :: lit "tables}") ++ d)
    by (rewrite <- !app_assoc; reflexivity).
  change (lit "{tables}") with (LBRACE :: lit "tables}").
  rewrite (py_replace_once (lit "tables}") (py_join (lit "<hr>") tables)
             (a ++ S ++ b ++ target ++ c) d)
    by (repeat apply passes_app; first [reflexivity | assumption]).
  unfold S. rewrite <- !app_assoc. reflexivity.
Qed.

Lemma generate_report_fills_template_witness :
  FileHandler.generate_report (lit "127.0.0.1") Cli.results
    (lit "report.html") example_files
  = FileHandler.save_to_file (lit "report.html")
      (lit "<html><head>" ++ lit "<style>" ++ lit "td {border: 1px solid}"
       ++ lit "</style>" ++ lit "</head><body><h1>Scan of "
       ++ lit "127.0.0.1" ++ (lit "</h1>" ++ [LF])
       ++ py_join (lit "<hr>")
            [table_html (lit "Example 1")
               [lit "IP"; lit "MAC"; lit "HOSTNAME"; lit "CVE"]
               [lit "121.232.34.11"; lit "00:00:00:00:00";
                lit "server@linux"; lit "CVE-2023-03-02.223-HTML"];
             table_html (lit "Example 2")
               [lit "IP"; lit "MAC"; lit "HOSTNAME"; lit "CVE"]
               [lit "121.232.34.11"; lit "00:00:00:00:00";
                lit "server@linux"; lit "CVE-2023-03-02.223-HTML"]]
       ++ lit "</body></html>") example_files.
Proof.
  exact (generate_report_fills_template (lit "127.0.0.1") Cli.results
           (lit "report.html") example_files
           (lit "<html><head>") (lit "</head><body><h1>Scan of ")
           (lit "</h1>" ++ [LF]) (lit "</body></html>")
           (lit "td {border: 1px solid}") _
           eq_refl eq_refl eq_refl eq_refl eq_refl eq_refl eq_refl eq_refl
           eq_refl).
Defined.



(** X15. The replacements are made one after the other, each on the result
    of the one before: with a template that, as read, has the target
    placeholder alone, a target that spells the placeholder of the tables
    has it replaced by the tables in the text handed to [save_to_file]. *)
Theorem target_placeholder_is_replaced
    (results : FileHandler.results_dict)
    (output_file : pystr) (fs : FileHandler.filesystem)
    (a d u v styles : pystr) (tables : list pystr) :
  FileHandler.read_file FileHandler.template_path fs
  = FileHandler.Done (a ++ lit "{target}" ++ d) ->
  FileHandler.read_file FileHandler.styles_path fs
  = FileHandler.Done styles ->
  placeholder_free a = true -> placeholder_free d = true ->
  placeholder_free u = true -> placeholder_free v = true ->
  FileHandler.render_tables results
    (FileHandler.py_range (List.length results))
  = FileHandler.Done tables ->
  FileHandler.generate_report (u ++ lit "{tables}" ++ v) results
    output_file fs
  = FileHandler.save_to_file output_file
      (a ++ u ++ py_join (lit "<hr>") tables ++ v ++ d) fs.
Proof.
  intros Htpl Hsty Ha Hd Hu Hv Htabs.
  destruct (placeholder_free_passes a Ha) as (Ha1 & Ha2 & Ha3).
  destruct (placeholder_free_passes d Hd) as (Hd1 & Hd2 & Hd3).
  destruct (placeholder_free_passes u Hu) as (Hu1 & Hu2 & Hu3).
  destruct (placeholder_free_passes v Hv) as (Hv1 & Hv2 & Hv3).
  unfold FileHandler.generate_report.
  rewrite Htpl, Hsty, Htabs. f_equal.
  change (lit "{styles}") with (LBRACE :: lit "styles}").
  rewrite (py_replace_none (lit "styles}") _ (a ++ lit "{target}" ++ d))
    by (repeat apply passes_app; first [reflexivity | assumption]).
  change (lit "{target}") with (LBRACE :: lit "target}").
  rewrite (py_replace_once (lit "target}") (u ++ lit "{tables}" ++ v) a d)
    by assumption.
  replace (a ++ (u ++ lit "{tables}" ++ v) ++ d)
    with ((a ++ u) ++ (LBRACE :: lit "tables}") ++ (v ++ d))
    by (rewrite <- !app_assoc; reflexivity).
  change (lit "{tables}") with (LBRACE :: lit "tables}").
  rewrite (py_replace_once (lit "tables}") (py_join (lit "<hr>") tables)
             (a ++ u) (v ++ d))
    by (repeat apply passes_app; first [reflexivity | assumption]).
  rewrite <- !app_assoc. reflexivity.
Qed.

Lemma target_placeholder_is_replaced_witness :
  FileHandler.generate_report (lit "host " ++ lit "{tables}" ++ lit "!") []
    (lit "out.html") target_only_files
  = FileHandler.save_to_file (lit "out.html")
      (lit "<h1>" ++ lit "host " ++ py_join (lit "<hr>") [] ++ lit "!"
       ++ lit "</h1>") target_only_files.
Proof.
  exact (target_placeholder_is_replaced [] (lit "out.html")
           target_only_files
           (lit "<h1>") (lit "</h1>") (lit "host ") (lit "!")
           (lit "td {border: 0}") []
           eq_refl eq_refl eq_refl eq_refl eq_refl eq_refl eq_refl).
Defined.

(** ** Which key is missed *)






(** ** The report command *)


